(** * Fire Creek tree-cutting priority: the scoring engine of
      [fire_creek_analysis.py]

    The development embeds the numeric core of [FireCreekAnalysis]: the
    min-max normaliser, the five factor scorers and the priority
    aggregator.

    Numbers.  A Python/numpy double is a [pyfloat]: either a finite value,
    idealised as an exact rational, or NaN.  Rounding, overflow and the
    infinities are outside the model.  Comparisons with NaN are false, as in
    IEEE 754, and arithmetic propagates NaN.  Where overflow decides a
    property, the statement carries the bound that keeps the doubles finite,
    and the normaliser is embedded a second time over binary64 (module
    [B64], on the kernel's primitive floats).

    Collaborators.  shapely (geometry predicates), the builtin [float] on
    strings, [pandas.cut] and [Series.rank] are not code of the repository;
    the first two are interfaces (type classes), the last two are written
    out after their documented behaviour. *)

From Stdlib Require PrimFloat.
From Stdlib Require Import String Ascii.
From Stdlib Require Import QArith Qabs Lqa Lia List Bool ZArith Sorted.
Import ListNotations.

Open Scope Q_scope.

(** ** Doubles *)

Inductive pyfloat : Type :=
| Fin (q : Q)
| NaN.

Module PyFloat.

Definition isnan (x : pyfloat) : bool :=
  match x with NaN => true | Fin _ => false end.

Definition add (x y : pyfloat) : pyfloat :=
  match x, y with
  | Fin a, Fin b => Fin (a + b)
  | _, _ => NaN
  end.

Definition sub (x y : pyfloat) : pyfloat :=
  match x, y with
  | Fin a, Fin b => Fin (a - b)
  | _, _ => NaN
  end.

Definition mul (x y : pyfloat) : pyfloat :=
  match x, y with
  | Fin a, Fin b => Fin (a * b)
  | _, _ => NaN
  end.

(** numpy's elementwise [/]: it never raises.  A zero divisor gives an
    infinity or NaN in IEEE arithmetic; the finite model answers NaN. *)
Definition np_div (x y : pyfloat) : pyfloat :=
  match x, y with
  | Fin a, Fin b => if Qeq_bool b 0 then NaN else Fin (a / b)
  | _, _ => NaN
  end.

(** [x == y] on doubles. *)
Definition eqb (x y : pyfloat) : bool :=
  match x, y with
  | Fin a, Fin b => Qeq_bool a b
  | _, _ => false
  end.

(** [x < y] on doubles. *)
Definition ltb (x y : pyfloat) : bool :=
  match x, y with
  | Fin a, Fin b => negb (Qle_bool b a)
  | _, _ => false
  end.

(** The builtin [max(a, b)]: the second argument wins only when it is
    strictly greater than the first. *)
Definition max (a b : pyfloat) : pyfloat :=
  if ltb a b then b else a.

(** Same value: rationals up to [Qeq], NaN only with NaN. *)
Definition same (x y : pyfloat) : Prop :=
  match x, y with
  | Fin a, Fin b => a == b
  | NaN, NaN => True
  | _, _ => False
  end.

End PyFloat.

Notation "x .+ y" := (PyFloat.add x y) (at level 50, left associativity).
Notation "x .- y" := (PyFloat.sub x y) (at level 50, left associativity).
Notation "x .* y" := (PyFloat.mul x y) (at level 40, left associativity).
Notation "x ./ y" := (PyFloat.np_div x y) (at level 40, left associativity).

(** ** Exceptions *)

Inductive exn : Type :=
| ZeroDivisionError
| ValueError
| IntCastingNaNError.

Inductive result (A : Type) : Type :=
| Ok (a : A)
| Raise (e : exn).

Arguments Ok {A} a.
Arguments Raise {A} e.

Definition bind {A B : Type} (m : result A) (k : A -> result B) : result B :=
  match m with
  | Ok a => k a
  | Raise e => Raise e
  end.

Notation "x <- m ;; k" := (bind m (fun x => k))
  (at level 61, m at next level, right associativity).

Fixpoint mapM {A B : Type} (f : A -> result B) (l : list A) : result (list B) :=
  match l with
  | [] => Ok []
  | a :: r => b <- f a ;; bs <- mapM f r ;; Ok (b :: bs)
  end.

(** Python's scalar [x / y] on floats: a zero divisor raises. *)
Definition py_div (x : pyfloat) (y : Q) : result pyfloat :=
  if Qeq_bool y 0 then Raise ZeroDivisionError
  else Ok (match x with Fin a => Fin (a / y) | NaN => NaN end).

(** ** The normaliser: [_normalize_score] *)

Definition qmin (a b : Q) : Q := if Qle_bool a b then a else b.
Definition qmax (a b : Q) : Q := if Qle_bool a b then b else a.

(** [np.nanmin] and [np.nanmax]: NaN entries are skipped; an input with no
    number at all gives NaN. *)
Definition nan_fold (op : Q -> Q -> Q) (values : list pyfloat) : pyfloat :=
  fold_left (fun acc v =>
               match acc, v with
               | NaN, _ => v
               | _, NaN => acc
               | Fin a, Fin b => Fin (op a b)
               end) values NaN.

Definition nanmin : list pyfloat -> pyfloat := nan_fold qmin.
Definition nanmax : list pyfloat -> pyfloat := nan_fold qmax.

Definition np_zeros (n : nat) : list pyfloat := repeat (Fin 0) n.
Definition np_full (n : nat) (v : Q) : list pyfloat := repeat (Fin v) n.

Definition _normalize_score (values : list pyfloat) (inverse : bool)
  : list pyfloat :=
  if (length values =? 0)%nat || forallb PyFloat.isnan values then
    np_zeros (length values)
  else
    let min_val := nanmin values in
    let max_val := nanmax values in
    if PyFloat.eqb max_val min_val then np_full (length values) 5
    else if inverse then
      map (fun v => Fin 10 .- (v .- min_val) ./ (max_val .- min_val) .* Fin 10)
          values
    else
      map (fun v => (v .- min_val) ./ (max_val .- min_val) .* Fin 10) values.

(** ** Attribute lookup

    Every scorer scans the columns of a feature row in order and takes the
    first one whose lower-cased name contains one of its tokens and whose
    value [float] accepts.  The source repeats the loop four times with
    different tokens and defaults; [resolve] is that loop.  (The row's
    [geometry] column is scanned as well; its name contains none of the
    tokens, so it is left out of [columns].) *)

Definition lower_ascii (c : ascii) : ascii :=
  let n := nat_of_ascii c in
  if (65 <=? n)%nat && (n <=? 90)%nat then ascii_of_nat (n + 32) else c.

(** [str.lower] on ASCII column names. *)
Fixpoint lower (s : string) : string :=
  match s with
  | EmptyString => EmptyString
  | String c r => String (lower_ascii c) (lower r)
  end.

(** [tok in s] on strings. *)
Fixpoint contains (tok s : string) : bool :=
  prefix tok s ||
  match s with
  | EmptyString => false
  | String _ r => contains tok r
  end.

Inductive attr_value : Type :=
| VFloat (x : pyfloat)
| VInt (z : Z)
| VStr (s : string)
| VNone.

(** The builtin [float] on a string, [None] when it raises [ValueError]. *)
Class FloatOfStr : Type := float_of_str : string -> option pyfloat.

(** [float(v)] under [try]/[except]: [None] stands for any exception. *)
Definition py_float `{FloatOfStr} (v : attr_value) : option pyfloat :=
  match v with
  | VFloat x => Some x
  | VInt z => Some (Fin (inject_Z z))
  | VStr s => float_of_str s
  | VNone => None
  end.

Definition matches (tokens : list string) (col : string) : bool :=
  existsb (fun tok => contains tok (lower col)) tokens.

Fixpoint resolve `{FloatOfStr} (tokens : list string) (default : pyfloat)
  (cols : list (string * attr_value)) : pyfloat :=
  match cols with
  | [] => default
  | (col, v) :: rest =>
      if matches tokens col then
        match py_float v with
        | Some x => x
        | None => resolve tokens default rest
        end
      else resolve tokens default rest
  end.

(** ** Geometry (shapely) *)

Class Geometry (G : Type) : Type := {
  intersects : G -> G -> bool;
  distance : G -> G -> Q;
  area : G -> Q;
  (** [a.intersection(b).area] *)
  intersection_area : G -> G -> Q
}.

Record Feature (G : Type) : Type := {
  geometry : G;
  columns : list (string * attr_value)
}.

Arguments geometry {G} _.
Arguments columns {G} _.

Definition Qltb (a b : Q) : bool := negb (Qle_bool b a).

(** ** The factor scorers *)

Section Scorers.

Context {G : Type} `{Geometry G} `{FloatOfStr}.

(** *** Factor 1: tree mortality, [calculate_tree_mortality_score] *)

Definition mortality_value_of (mortality_area : Feature G) : pyfloat :=
  resolve ["mort"; "value"; "rate"]%string (Fin 0) (columns mortality_area).

(** The inner loop: the pair (weighted_mortality, total_intersection_area)
    after the overlapping features have been visited. *)
Definition mortality_accumulate (grid_cell : Feature G)
  (overlaps : list (Feature G)) : pyfloat * Q :=
  fold_left
    (fun acc mortality_area =>
       let intersection_area :=
         intersection_area (geometry grid_cell) (geometry mortality_area) in
       let mortality_value := mortality_value_of mortality_area in
       (fst acc .+ mortality_value .* Fin intersection_area,
        snd acc + intersection_area))
    overlaps (Fin 0, 0).

Definition mortality_cell_score (tree_mortality : list (Feature G))
  (grid_cell : Feature G) : result pyfloat :=
  let overlaps :=
    filter (fun m => intersects (geometry m) (geometry grid_cell))
           tree_mortality in
  if (0 <? length overlaps)%nat then
    let acc := mortality_accumulate grid_cell overlaps in
    let weighted_mortality := fst acc in
    let total_intersection_area := snd acc in
    if Qltb 0 total_intersection_area then
      py_div weighted_mortality total_intersection_area
    else Ok (Fin 0)
  else Ok (Fin 0).

(** *** Factor 2: community features, [calculate_community_score] *)

Definition importance_of (feature : Feature G) : pyfloat :=
  resolve ["import"; "prior"; "weight"]%string (Fin 10) (columns feature).

Definition community_feature_score (grid_cell feature : Feature G) : pyfloat :=
  let distance := distance (geometry grid_cell) (geometry feature) in
  let importance := importance_of feature in
  if Qeq_bool distance 0 || intersects (geometry grid_cell) (geometry feature)
  then importance
  else if Qltb distance 100 then importance .* Fin (1 - distance / 100)
  else if Qltb distance 300 then
    importance .* Fin (1 # 2) .* Fin (1 - (distance - 100) / 200)
  else Fin 0.

Definition community_cell_score (community_features : list (Feature G))
  (grid_cell : Feature G) : pyfloat :=
  fold_left
    (fun max_score feature =>
       PyFloat.max max_score (community_feature_score grid_cell feature))
    community_features (Fin 0).

(** *** Factor 3: egress routes, [calculate_egress_score] *)

Definition priority_of (route : Feature G) : pyfloat :=
  resolve ["prior"; "import"; "class"]%string (Fin 10) (columns route).

Definition egress_route_score (grid_cell route : Feature G) : pyfloat :=
  let distance := distance (geometry grid_cell) (geometry route) in
  let priority := priority_of route in
  if Qeq_bool distance 0 || intersects (geometry grid_cell) (geometry route)
  then priority
  else if Qltb distance 50 then priority .* Fin (1 - distance / 50)
  else if Qltb distance 150 then
    priority .* Fin (1 # 2) .* Fin (1 - (distance - 50) / 100)
  else Fin 0.

Definition egress_cell_score (egress_routes : list (Feature G))
  (grid_cell : Feature G) : pyfloat :=
  fold_left
    (fun max_score route =>
       PyFloat.max max_score (egress_route_score grid_cell route))
    egress_routes (Fin 0).

(** *** Factor 4: populated areas, [calculate_population_score] *)

Definition pop_density_of (area : Feature G) : pyfloat :=
  resolve ["pop"; "dens"; "people"]%string (Fin 10) (columns area).

(** One turn of the loop over the populated areas.  The ratio is a scalar
    Python division, evaluated before the attribute lookup. *)
Definition population_step (grid_cell : Feature G) (total_score : pyfloat)
  (populated : Feature G) : result pyfloat :=
  if intersects (geometry grid_cell) (geometry populated) then
    ratio <- py_div
               (Fin (intersection_area (geometry grid_cell)
                                       (geometry populated)))
               (area (geometry grid_cell)) ;;
    let pop_density := pop_density_of populated in
    Ok (total_score .+ ratio .* pop_density)
  else Ok total_score.

Fixpoint population_loop (grid_cell : Feature G) (total_score : pyfloat)
  (populated_areas : list (Feature G)) : result pyfloat :=
  match populated_areas with
  | [] => Ok total_score
  | a :: rest =>
      total_score' <- population_step grid_cell total_score a ;;
      population_loop grid_cell total_score' rest
  end.

Definition population_cell_score (populated_areas : list (Feature G))
  (grid_cell : Feature G) : result pyfloat :=
  population_loop grid_cell (Fin 0) populated_areas.

(** *** Factor 5: electric utilities, [calculate_utility_score] *)

Record Utilities : Type := {
  transmission : list (Feature G);
  sub_transmission : list (Feature G);
  dist_circuits : list (Feature G);
  substations : list (Feature G);
  pole_top_subs : list (Feature G)
}.

Definition utility_layers (u : Utilities)
  : list (list (Feature G) * Q * string) :=
  [ (transmission u, 10, "Transmission"%string);
    (sub_transmission u, 8, "Sub-Transmission"%string);
    (dist_circuits u, 6, "Distribution"%string);
    (substations u, 10, "Substations"%string);
    (pole_top_subs u, 7, "Pole-Top Subs"%string) ].

Definition utility_feature_score (base_priority : Q)
  (grid_cell utility : Feature G) : pyfloat :=
  let distance := distance (geometry grid_cell) (geometry utility) in
  if Qeq_bool distance 0 || intersects (geometry grid_cell) (geometry utility)
  then Fin base_priority
  else if Qltb distance 30 then Fin (base_priority * (1 - distance / 30))
  else if Qltb distance 100 then
    Fin (base_priority * (1 # 2) * (1 - (distance - 30) / 70))
  else Fin 0.

Definition utility_cell_score (u : Utilities) (grid_cell : Feature G)
  : pyfloat :=
  fold_left
    (fun max_score layer =>
       let '(utility_layer, base_priority, _) := layer in
       fold_left
         (fun max_score utility =>
            PyFloat.max max_score
              (utility_feature_score base_priority grid_cell utility))
         utility_layer max_score)
    (utility_layers u) (Fin 0).

(** *** The five passes over the grid

    Each pass stores the raw column and its normalised copy, then prints a
    summary with [min(scores)] and [max(scores)]; on an empty grid the
    builtin [min] raises [ValueError]. *)

Record Layers : Type := {
  tree_mortality : list (Feature G);
  community_features : list (Feature G);
  egress_routes : list (Feature G);
  populated_areas : list (Feature G);
  utilities : Utilities
}.

Definition print_summary (scores : list pyfloat) : result unit :=
  match scores with
  | [] => Raise ValueError
  | _ :: _ => Ok tt
  end.

Definition calculate_tree_mortality_score (L : Layers)
  (cutting_grid : list (Feature G)) : result (list pyfloat * list pyfloat) :=
  scores <- mapM (mortality_cell_score (tree_mortality L)) cutting_grid ;;
  let norm := _normalize_score scores false in
  _ <- print_summary scores ;;
  Ok (scores, norm).

Definition calculate_community_score (L : Layers)
  (cutting_grid : list (Feature G)) : result (list pyfloat * list pyfloat) :=
  let scores := map (community_cell_score (community_features L)) cutting_grid in
  let norm := _normalize_score scores false in
  _ <- print_summary scores ;;
  Ok (scores, norm).

Definition calculate_egress_score (L : Layers)
  (cutting_grid : list (Feature G)) : result (list pyfloat * list pyfloat) :=
  let scores := map (egress_cell_score (egress_routes L)) cutting_grid in
  let norm := _normalize_score scores false in
  _ <- print_summary scores ;;
  Ok (scores, norm).

Definition calculate_population_score (L : Layers)
  (cutting_grid : list (Feature G)) : result (list pyfloat * list pyfloat) :=
  scores <- mapM (population_cell_score (populated_areas L)) cutting_grid ;;
  let norm := _normalize_score scores false in
  _ <- print_summary scores ;;
  Ok (scores, norm).

Definition calculate_utility_score (L : Layers)
  (cutting_grid : list (Feature G)) : result (list pyfloat * list pyfloat) :=
  let scores := map (utility_cell_score (utilities L)) cutting_grid in
  let norm := _normalize_score scores false in
  _ <- print_summary scores ;;
  Ok (scores, norm).

End Scorers.

(** ** The priority aggregator: [calculate_overall_priority] *)

(** [self.weights], keyed by factor name. *)
Record Weights : Type := {
  w_tree_mortality : Q;
  w_community_features : Q;
  w_egress_routes : Q;
  w_populated_areas : Q;
  w_electric_utilities : Q
}.

(** The weights installed by [__init__]. *)
Definition init_weights : Weights := {|
  w_tree_mortality := 25 # 100;
  w_community_features := 20 # 100;
  w_egress_routes := 20 # 100;
  w_populated_areas := 20 # 100;
  w_electric_utilities := 15 # 100
|}.


(** The five normalised columns of one grid row. *)
Record FactorScores : Type := {
  mortality_score_norm : pyfloat;
  community_score_norm : pyfloat;
  egress_score_norm : pyfloat;
  population_score_norm : pyfloat;
  utility_score_norm : pyfloat
}.

Definition weighted_sum (w : Weights) (r : FactorScores) : pyfloat :=
  mortality_score_norm r .* Fin (w_tree_mortality w)
  .+ community_score_norm r .* Fin (w_community_features w)
  .+ egress_score_norm r .* Fin (w_egress_routes w)
  .+ population_score_norm r .* Fin (w_populated_areas w)
  .+ utility_score_norm r .* Fin (w_electric_utilities w).

Inductive PriorityClass : Type :=
| VeryLow
| Low
| Medium
| High
| VeryHigh.

(** *** [pandas.cut]

    With the default [right=True] the bins are closed on the right:
    [searchsorted(side="left")] counts the edges strictly below the value,
    [include_lowest] moves a value equal to the first edge into the first bin,
    and a value outside every bin (or NaN) gets no label. *)

Definition searchsorted_left (bins : list Q) (x : Q) : nat :=
  length (filter (fun b => Qltb b x) bins).

Definition cut {L : Type} (bins : list Q) (labels : list L)
  (include_lowest : bool) (x : pyfloat) : option L :=
  match x with
  | NaN => None
  | Fin q =>
      let ids := searchsorted_left bins q in
      let ids :=
        if include_lowest && Qeq_bool q (hd 0 bins) then 1%nat else ids in
      if (ids =? 0)%nat || (ids =? length bins)%nat then None
      else nth_error labels (ids - 1)
  end.

Definition priority_bins : list Q := [0; 2; 4; 6; 8; 10].

Definition priority_labels : list PriorityClass :=
  [VeryLow; Low; Medium; High; VeryHigh].

Definition classify (x : pyfloat) : option PriorityClass :=
  cut priority_bins priority_labels true x.

(** *** [Series.rank(ascending=False, method="dense")]

    The values are sorted in descending order, equal values form one group,
    and a value's rank is the 1-based position of its group.  NaN keeps a NaN
    rank and takes no part in the ranking. *)

Fixpoint insert_desc (x : Q) (l : list Q) : list Q :=
  match l with
  | [] => [x]
  | y :: r => if Qle_bool y x then x :: l else y :: insert_desc x r
  end.

Definition sort_desc (l : list Q) : list Q := fold_right insert_desc [] l.

(** One representative per run of equal neighbours. *)
Fixpoint groups (l : list Q) : list Q :=
  match l with
  | [] => []
  | x :: r =>
      match r with
      | [] => [x]
      | y :: _ => if Qeq_bool x y then groups r else x :: groups r
      end
  end.

Fixpoint index_of (x : Q) (l : list Q) : nat :=
  match l with
  | [] => 0
  | y :: r => if Qeq_bool x y then 0 else S (index_of x r)
  end.

Definition numbers (values : list pyfloat) : list Q :=
  flat_map (fun v => match v with Fin q => [q] | NaN => [] end) values.

Definition dense_rank_of (values : list pyfloat) (q : Q) : nat :=
  S (index_of q (groups (sort_desc (numbers values)))).

Definition rank_dense_descending (values : list pyfloat) : list pyfloat :=
  map (fun v =>
         match v with
         | Fin q => Fin (inject_Z (Z.of_nat (dense_rank_of values q)))
         | NaN => NaN
         end) values.

(** [Series.astype(int)]: truncation towards zero; NaN cannot be cast. *)
Definition astype_int (values : list pyfloat) : result (list Z) :=
  mapM (fun v =>
          match v with
          | Fin q => Ok (Z.quot (Qnum q) (Zpos (Qden q)))
          | NaN => Raise IntCastingNaNError
          end) values.

(** *** The aggregation *)

Record ScoredCell : Type := {
  factors : FactorScores;
  overall_priority : pyfloat;
  priority_normalized : pyfloat;
  priority_class : option PriorityClass;
  priority_rank : Z
}.

Fixpoint assemble (fs : list FactorScores) (ov nm : list pyfloat)
  (cl : list (option PriorityClass)) (rk : list Z) : list ScoredCell :=
  match fs, ov, nm, cl, rk with
  | f :: fs', o :: ov', n :: nm', c :: cl', r :: rk' =>
      {| factors := f; overall_priority := o; priority_normalized := n;
         priority_class := c; priority_rank := r |}
      :: assemble fs' ov' nm' cl' rk'
  | _, _, _, _, _ => []
  end.

Definition calculate_overall_priority (weights : Weights)
  (cutting_grid : list FactorScores) : result (list ScoredCell) :=
  let overall := map (weighted_sum weights) cutting_grid in
  let normalized := _normalize_score overall false in
  let classes := map classify normalized in
  ranks <- astype_int (rank_dense_descending normalized) ;;
  Ok (assemble cutting_grid overall normalized classes ranks).

Fixpoint zip5 (a b c d e : list pyfloat) : list FactorScores :=
  match a, b, c, d, e with
  | x1 :: a', x2 :: b', x3 :: c', x4 :: d', x5 :: e' =>
      {| mortality_score_norm := x1; community_score_norm := x2;
         egress_score_norm := x3; population_score_norm := x4;
         utility_score_norm := x5 |} :: zip5 a' b' c' d' e'
  | _, _, _, _, _ => []
  end.

(** [run_analysis] between loading and saving: the five scoring passes in
    the source's order, then the aggregation. *)
Definition run_analysis {G : Type} `{Geometry G} `{FloatOfStr}
  (weights : Weights) (L : Layers) (cutting_grid : list (Feature G))
  : result (list ScoredCell) :=
  m <- calculate_tree_mortality_score L cutting_grid ;;
  c <- calculate_community_score L cutting_grid ;;
  e <- calculate_egress_score L cutting_grid ;;
  p <- calculate_population_score L cutting_grid ;;
  u <- calculate_utility_score L cutting_grid ;;
  calculate_overall_priority weights
    (zip5 (snd m) (snd c) (snd e) (snd p) (snd u)).

(** ** The specification's vocabulary

    Definitions that follow the wording of the design document; the
    theorems relate them to the functions above. *)

Definition is_minimum (lo : Q) (qs : list Q) : Prop :=
  Exists (fun q => q == lo) qs /\ Forall (fun q => lo <= q) qs.

Definition is_maximum (hi : Q) (qs : list Q) : Prop :=
  Exists (fun q => q == hi) qs /\ Forall (fun q => q <= hi) qs.

(** The linear map of the normaliser. *)
Definition linear_map (lo hi : Q) (inverse : bool) (v : Q) : Q :=
  if inverse then 10 - (v - lo) / (hi - lo) * 10
  else (v - lo) / (hi - lo) * 10.

Definition fsum (l : list pyfloat) : pyfloat :=
  fold_right PyFloat.add (Fin 0) l.

Definition qsum (l : list Q) : Q := fold_right Qplus 0 l.

(** sum(magnitude_i * area_i) / sum(area_i) over (magnitude, area) pairs. *)
Definition area_weighted_average (overlaps : list (pyfloat * Q)) : pyfloat :=
  fsum (map (fun p => fst p .* Fin (snd p)) overlaps)
  ./ Fin (qsum (map snd overlaps)).

(** sum(ratio_i * density_i) over (ratio, density) pairs. *)
Definition ratio_density_sum (terms : list (Q * pyfloat)) : pyfloat :=
  fsum (map (fun t => Fin (fst t) .* snd t) terms).

(** The two-segment distance decay of a proximity factor. *)
Definition decay_contribution (near far : Q) (magnitude : pyfloat)
  (touching : bool) (d : Q) : pyfloat :=
  if touching then magnitude
  else if Qltb d near then magnitude .* Fin (1 - d / near)
  else if Qltb d far then
    magnitude .* Fin (1 # 2) .* Fin (1 - (d - near) / (far - near))
  else Fin 0.

(** The bins as the data model words them: [0,2), [2,4), [4,6), [6,8) and
    [8,10]. *)
Definition half_open_class (q : Q) : option PriorityClass :=
  if Qltb q 0 then None
  else if Qltb q 2 then Some VeryLow
  else if Qltb q 4 then Some Low
  else if Qltb q 6 then Some Medium
  else if Qltb q 8 then Some High
  else if Qle_bool q 10 then Some VeryHigh
  else None.

(** A grid row whose five normalised scores are all numbers. *)
Definition numeric_row (r : FactorScores) : Prop :=
  PyFloat.isnan (mortality_score_norm r) = false /\
  PyFloat.isnan (community_score_norm r) = false /\
  PyFloat.isnan (egress_score_norm r) = false /\
  PyFloat.isnan (population_score_norm r) = false /\
  PyFloat.isnan (utility_score_norm r) = false.

(** Descending orders on a list: each element against the later ones. *)
Definition ge_first (a b : Q) : Prop := b <= a.
Definition gt_first (a b : Q) : Prop := b < a.


(** No column of the row is both named for the factor and numeric. *)
Definition unresolved `{FloatOfStr} (tokens : list string)
  (cols : list (string * attr_value)) : Prop :=
  Forall (fun c => matches tokens (fst c) = false \/ py_float (snd c) = None)
         cols.

(** ** Per-feature contributions of the proximity factors *)

Section Contributions.

Context {G : Type} `{Geometry G} `{FloatOfStr}.

(** The contributions a cell receives, feature by feature. *)
Definition community_contributions (layer : list (Feature G))
  (grid_cell : Feature G) : list pyfloat :=
  map (community_feature_score grid_cell) layer.

Definition egress_contributions (layer : list (Feature G))
  (grid_cell : Feature G) : list pyfloat :=
  map (egress_route_score grid_cell) layer.

Definition utility_contributions (u : Utilities) (grid_cell : Feature G)
  : list pyfloat :=
  flat_map (fun layer : list (Feature G) * Q * string =>
              map (utility_feature_score (snd (fst layer)) grid_cell)
                  (fst (fst layer)))
           (utility_layers u).

(** [distance == 0 or intersects] *)
Definition touching (grid_cell feature : Feature G) : bool :=
  Qeq_bool (distance (geometry grid_cell) (geometry feature)) 0
  || intersects (geometry grid_cell) (geometry feature).

(** The (magnitude, intersection area) pairs of the features under a cell. *)
Definition mortality_overlaps (grid_cell : Feature G)
  (overlaps : list (Feature G)) : list (pyfloat * Q) :=
  map (fun m => (mortality_value_of m,
                 intersection_area (geometry grid_cell) (geometry m)))
      overlaps.

(** The (ratio, density) pairs of the populated areas over a cell. *)
Definition population_terms (grid_cell : Feature G)
  (hits : list (Feature G)) : list (Q * pyfloat) :=
  map (fun a => (intersection_area (geometry grid_cell) (geometry a)
                 / area (geometry grid_cell),
                 pop_density_of a))
      hits.

End Contributions.

(** ** A small geometry for worked examples

    Closed intervals of a transect: length plays the part of area.  Text
    attributes are read by a parser that accepts plain digit strings only. *)

Record interval : Type := { lo : Q; hi : Q }.

Definition iv_intersects (a b : interval) : bool :=
  Qle_bool (qmax (lo a) (lo b)) (qmin (hi a) (hi b)).

Definition iv_distance (a b : interval) : Q :=
  qmax 0 (qmax (lo a) (lo b) - qmin (hi a) (hi b)).

Definition iv_area (a : interval) : Q := hi a - lo a.

Definition iv_intersection_area (a b : interval) : Q :=
  qmax 0 (qmin (hi a) (hi b) - qmax (lo a) (lo b)).

#[export] Instance interval_geometry : Geometry interval := {|
  intersects := iv_intersects;
  distance := iv_distance;
  area := iv_area;
  intersection_area := iv_intersection_area
|}.

Fixpoint digits_value (s : string) (acc : Z) : option Z :=
  match s with
  | EmptyString => Some acc
  | String c r =>
      let n := nat_of_ascii c in
      if (48 <=? n)%nat && (n <=? 57)%nat
      then digits_value r (acc * 10 + Z.of_nat (n - 48))
      else None
  end.

#[export] Instance digits_only : FloatOfStr :=
  fun s =>
    match s with
    | EmptyString => None
    | _ => option_map (fun z => Fin (inject_Z z)) (digits_value s 0)
    end.

Definition span (a b : Q) (cols : list (string * attr_value))
  : Feature interval :=
  {| geometry := {| lo := a; hi := b |}; columns := cols |}.

(** A cell on [0, 10] and a community site on the same span whose
    importance column holds -5. *)
Definition probe_cell : Feature interval := span 0 10 [].

Definition negative_site : Feature interval :=
  span 0 10 [("Importance"%string, VInt (-5))].

(** A route 25 away from the cell, priority 10 by default. *)
Definition nearby_route : Feature interval :=
  span 35 40 [("NAME"%string, VStr "Fire Creek Rd"%string)].

(** The mortality overlay scenario: a cell of area 100 under a
    magnitude-4 feature over 60 and a magnitude-8 feature over 40. *)
Definition overlay_cell : Feature interval := span 0 100 [].

Definition overlay_mortality : list (Feature interval) :=
  [ span 0 60 [("FID"%string, VInt 1); ("MORT_VAL"%string, VInt 4)];
    span 60 100 [("FID"%string, VInt 2); ("MORT_VAL"%string, VStr "8"%string)];
    span 200 300 [("MORT_VAL"%string, VInt 9)] ].

(** The population scenario: full cover by a density-6 area, half cover by
    a density-4 area. *)
Definition populated_scenario : list (Feature interval) :=
  [ span 0 10 [("POP_DENS"%string, VInt 6)];
    span 5 20 [("Density"%string, VFloat (Fin 4))] ].

(** A cell collapsed to a point inside a populated area. *)
Definition degenerate_cell : Feature interval := span 5 5 [].

Definition populated_block : list (Feature interval) :=
  [ span 0 10 [("POP_DENS"%string, VInt 6)] ].

Definition degenerate_layers : Layers := {|
  tree_mortality := overlay_mortality;
  community_features := [];
  egress_routes := [nearby_route];
  populated_areas := populated_block;
  utilities := {| transmission := []; sub_transmission := [];
                  dist_circuits := []; substations := [];
                  pole_top_subs := [] |}
|}.

(** Three rows as the scoring passes leave them when only the mortality
    layer varies: mortality 0, 2 and 10, every other column flat at 5. *)
Definition mortality_row (q : Q) : FactorScores := {|
  mortality_score_norm := Fin q;
  community_score_norm := Fin 5;
  egress_score_norm := Fin 5;
  population_score_norm := Fin 5;
  utility_score_norm := Fin 5
|}.

Definition boundary_grid : list FactorScores :=
  [mortality_row 0; mortality_row 2; mortality_row 10].

(** A transect that produces those rows: three cells, mortality 1 over the
    second and 5 over the third, no other feature anywhere. *)
Definition boundary_cells : list (Feature interval) :=
  [span 0 10 []; span 20 30 []; span 40 50 []].

Definition boundary_layers : Layers := {|
  tree_mortality :=
    [ span 20 30 [("MORT_RATE"%string, VInt 1)];
      span 40 50 [("MORT_RATE"%string, VInt 5)] ];
  community_features := [];
  egress_routes := [];
  populated_areas := [];
  utilities := {| transmission := []; sub_transmission := [];
                  dist_circuits := []; substations := [];
                  pole_top_subs := [] |}
|}.






(** The aggregation of [boundary_grid] under the installed weights, and its
    middle cell, whose final priority is 2. *)
Definition boundary_table : list ScoredCell :=
  match calculate_overall_priority init_weights boundary_grid with
  | Ok table => table
  | Raise _ => []
  end.

Definition boundary_cell : ScoredCell :=
  nth 1 boundary_table
      {| factors := mortality_row 0; overall_priority := NaN;
         priority_normalized := NaN; priority_class := None;
         priority_rank := 0 |}.

Definition boundary_priority : Q :=
  match priority_normalized boundary_cell with
  | Fin q => q
  | NaN => 0
  end.

(** ** Staying inside the double format

    The largest double is just below 2^1024.  Entries of magnitude at most
    2^1022 keep [v - min_val] and [max_val - min_val] finite; weights of
    magnitude at most 2^1000 keep the weighted sum of five scores in [0, 10]
    and its range finite. *)







(** ** The normaliser over binary64

    [_normalize_score] once more, with IEEE 754 double arithmetic in place
    of exact rationals: numpy's elementwise operations never raise, a
    difference beyond the largest double is an infinity, and infinity
    divided by infinity is NaN. *)

Module B64.

Import PrimFloat.

(** [np.nanmin], [np.nanmax]: NaN entries are skipped. *)
Definition skip_nan (pick : float -> float -> bool) (values : list float)
  : float :=
  fold_left (fun acc v =>
               if is_nan acc then v
               else if is_nan v then acc
               else if pick v acc then v else acc) values nan.

Definition nanmin : list float -> float := skip_nan ltb.
Definition nanmax : list float -> float := skip_nan (fun v acc => ltb acc v).

Definition _normalize_score (values : list float) (inverse : bool)
  : list float :=
  if Nat.eqb (length values) 0 || forallb is_nan values then
    repeat zero (length values)
  else
    let min_val := nanmin values in
    let max_val := nanmax values in
    if eqb max_val min_val then repeat 5%float (length values)
    else if inverse then
      map (fun v => (10 - (v - min_val) / (max_val - min_val) * 10)%float)
          values
    else
      map (fun v => ((v - min_val) / (max_val - min_val) * 10)%float) values.





End B64.

(** * Properties *)

(** ** Comparisons on rationals *)

Lemma Qltb_lt (a b : Q) : Qltb a b = true <-> a < b.
Proof.
  unfold Qltb. rewrite negb_true_iff. split; intro Hab.
  - apply Qnot_le_lt. intro Hle. apply Qle_bool_iff in Hle. congruence.
  - destruct (Qle_bool b a) eqn:E; [|reflexivity].
    apply Qle_bool_iff in E. exfalso. apply (Qlt_not_le _ _ Hab E).
Qed.

Lemma Qltb_ge (a b : Q) : Qltb a b = false <-> b <= a.
Proof.
  unfold Qltb. rewrite negb_false_iff. apply Qle_bool_iff.
Qed.

Lemma Qle_bool_gt (a b : Q) : Qle_bool a b = false <-> b < a.
Proof.
  rewrite <- Qltb_lt. unfold Qltb. now rewrite negb_true_iff.
Qed.

Lemma Qeq_bool_false (a b : Q) : Qeq_bool a b = false <-> ~ a == b.
Proof.
  split.
  - apply Qeq_bool_neq.
  - intro Hne. destruct (Qeq_bool a b) eqn:E; [|reflexivity].
    apply Qeq_bool_iff in E. contradiction.
Qed.

Lemma qmin_spec (a b : Q) :
  (qmin a b = a \/ qmin a b = b) /\ qmin a b <= a /\ qmin a b <= b.
Proof.
  unfold qmin. destruct (Qle_bool a b) eqn:E.
  - apply Qle_bool_iff in E. repeat split; auto; lra.
  - apply Qle_bool_gt in E. repeat split; auto; lra.
Qed.

Lemma qmax_spec (a b : Q) :
  (qmax a b = a \/ qmax a b = b) /\ a <= qmax a b /\ b <= qmax a b.
Proof.
  unfold qmax. destruct (Qle_bool a b) eqn:E.
  - apply Qle_bool_iff in E. repeat split; auto; lra.
  - apply Qle_bool_gt in E. repeat split; auto; lra.
Qed.

(** ** Minimum and maximum that skip NaN *)

Lemma numbers_cons_fin (q : Q) (vs : list pyfloat) :
  numbers (Fin q :: vs) = q :: numbers vs.
Proof. reflexivity. Qed.

Lemma numbers_cons_nan (vs : list pyfloat) : numbers (NaN :: vs) = numbers vs.
Proof. reflexivity. Qed.

Lemma numbers_map_Fin (qs : list Q) : numbers (map Fin qs) = qs.
Proof.
  induction qs as [|q qs IH]; [reflexivity|].
  simpl map. rewrite numbers_cons_fin. now f_equal.
Qed.

Lemma numbers_nil_all_nan (vs : list pyfloat) :
  numbers vs = [] <-> forallb PyFloat.isnan vs = true.
Proof.
  induction vs as [|[q|] vs IH]; simpl.
  - tauto.
  - split; discriminate.
  - exact IH.
Qed.

Lemma nan_fold_started (op : Q -> Q -> Q) (vs : list pyfloat) (a : Q) :
  fold_left (fun acc v =>
               match acc, v with
               | NaN, _ => v
               | _, NaN => acc
               | Fin x, Fin y => Fin (op x y)
               end) vs (Fin a)
  = Fin (fold_left op (numbers vs) a).
Proof.
  revert a. induction vs as [|[q|] vs IH]; intro a.
  - reflexivity.
  - rewrite numbers_cons_fin. simpl. apply IH.
  - rewrite numbers_cons_nan. simpl. apply IH.
Qed.

Lemma nan_fold_numbers (op : Q -> Q -> Q) (vs : list pyfloat) :
  nan_fold op vs =
  match numbers vs with
  | [] => NaN
  | q :: r => Fin (fold_left op r q)
  end.
Proof.
  unfold nan_fold. induction vs as [|[q|] vs IH].
  - reflexivity.
  - rewrite numbers_cons_fin. simpl. apply nan_fold_started.
  - rewrite numbers_cons_nan. simpl. exact IH.
Qed.

Lemma fold_qmin_spec (qs : list Q) (a : Q) :
  In (fold_left qmin qs a) (a :: qs) /\
  Forall (fun q => fold_left qmin qs a <= q) (a :: qs).
Proof.
  revert a. induction qs as [|q qs IH]; intro a; simpl fold_left.
  - split; [now left | constructor; [lra | constructor]].
  - destruct (IH (qmin a q)) as [Hin Hall].
    destruct (qmin_spec a q) as [Hsel [Hle1 Hle2]].
    inversion Hall as [|? ? Hhd Htl]; subst.
    split.
    + destruct Hin as [Heq | Hin].
      * rewrite <- Heq. destruct Hsel as [-> | ->];
          [now left | right; now left].
      * right; now right.
    + constructor; [lra|]. constructor; [lra | exact Htl].
Qed.

Lemma fold_qmax_spec (qs : list Q) (a : Q) :
  In (fold_left qmax qs a) (a :: qs) /\
  Forall (fun q => q <= fold_left qmax qs a) (a :: qs).
Proof.
  revert a. induction qs as [|q qs IH]; intro a; simpl fold_left.
  - split; [now left | constructor; [lra | constructor]].
  - destruct (IH (qmax a q)) as [Hin Hall].
    destruct (qmax_spec a q) as [Hsel [Hle1 Hle2]].
    inversion Hall as [|? ? Hhd Htl]; subst.
    split.
    + destruct Hin as [Heq | Hin].
      * rewrite <- Heq. destruct Hsel as [-> | ->];
          [now left | right; now left].
      * right; now right.
    + constructor; [lra|]. constructor; [lra | exact Htl].
Qed.

Lemma In_Exists_Qeq (x : Q) (qs : list Q) :
  In x qs -> Exists (fun q => q == x) qs.
Proof.
  intro Hin. apply Exists_exists. exists x. split; [exact Hin | reflexivity].
Qed.

Lemma nanmin_is_minimum (vs : list pyfloat) :
  numbers vs <> [] ->
  exists m, nanmin vs = Fin m /\ is_minimum m (numbers vs).
Proof.
  intro Hne. unfold nanmin. rewrite nan_fold_numbers.
  destruct (numbers vs) as [|q r]; [contradiction|].
  exists (fold_left qmin r q). split; [reflexivity|].
  destruct (fold_qmin_spec r q) as [Hin Hall].
  split; [now apply In_Exists_Qeq | exact Hall].
Qed.

Lemma nanmax_is_maximum (vs : list pyfloat) :
  numbers vs <> [] ->
  exists m, nanmax vs = Fin m /\ is_maximum m (numbers vs).
Proof.
  intro Hne. unfold nanmax. rewrite nan_fold_numbers.
  destruct (numbers vs) as [|q r]; [contradiction|].
  exists (fold_left qmax r q). split; [reflexivity|].
  destruct (fold_qmax_spec r q) as [Hin Hall].
  split; [now apply In_Exists_Qeq | exact Hall].
Qed.

Lemma is_minimum_unique (a b : Q) (qs : list Q) :
  is_minimum a qs -> is_minimum b qs -> a == b.
Proof.
  intros [Ha1 Ha2] [Hb1 Hb2].
  apply Exists_exists in Ha1 as [x [Hx Hxa]].
  apply Exists_exists in Hb1 as [y [Hy Hyb]].
  rewrite Forall_forall in Ha2, Hb2.
  specialize (Ha2 y Hy). specialize (Hb2 x Hx). lra.
Qed.

Lemma is_maximum_unique (a b : Q) (qs : list Q) :
  is_maximum a qs -> is_maximum b qs -> a == b.
Proof.
  intros [Ha1 Ha2] [Hb1 Hb2].
  apply Exists_exists in Ha1 as [x [Hx Hxa]].
  apply Exists_exists in Hb1 as [y [Hy Hyb]].
  rewrite Forall_forall in Ha2, Hb2.
  specialize (Ha2 y Hy). specialize (Hb2 x Hx). lra.
Qed.

(** ** The linear map on a proper range *)



Lemma fraction_strict (lo hi v1 v2 : Q) :
  lo < hi -> v1 < v2 -> (v1 - lo) / (hi - lo) < (v2 - lo) / (hi - lo).
Proof.
  intros Hlt Hv. unfold Qdiv. apply Qmult_lt_compat_r; [|lra].
  apply Qinv_lt_0_compat. lra.
Qed.






Lemma linear_map_strict (lo hi : Q) (inverse : bool) (v1 v2 : Q) :
  lo < hi -> v1 < v2 ->
  if inverse then linear_map lo hi true v2 < linear_map lo hi true v1
  else linear_map lo hi false v1 < linear_map lo hi false v2.
Proof.
  intros Hlt Hv. pose proof (fraction_strict lo hi v1 v2 Hlt Hv) as Hm.
  unfold linear_map. destruct inverse; lra.
Qed.




(** The normaliser on a sequence with at least one number, in terms of the
    computed extremes. *)
Lemma normalize_with_numbers (values : list pyfloat) (inverse : bool) :
  numbers values <> [] ->
  exists m M,
    is_minimum m (numbers values) /\ is_maximum M (numbers values) /\
    _normalize_score values inverse =
    if Qeq_bool M m then repeat (Fin 5) (length values)
    else if inverse then
      map (fun v => Fin 10 .- (v .- Fin m) ./ (Fin M .- Fin m) .* Fin 10) values
    else map (fun v => (v .- Fin m) ./ (Fin M .- Fin m) .* Fin 10) values.
Proof.
  intro Hne.
  destruct (nanmin_is_minimum values Hne) as [m [Hm Hmin]].
  destruct (nanmax_is_maximum values Hne) as [M [HM Hmax]].
  exists m, M. repeat split; try assumption; try apply Hmin; try apply Hmax.
  unfold _normalize_score.
  assert (Hnan : forallb PyFloat.isnan values = false).
  { destruct (forallb PyFloat.isnan values) eqn:E; [|reflexivity].
    apply numbers_nil_all_nan in E. contradiction. }
  assert (Hlen : (length values =? 0)%nat = false).
  { destruct values; [now elim Hne | reflexivity]. }
  rewrite Hlen, Hnan, Hm, HM. reflexivity.
Qed.

(** C7: the normaliser returns an empty sequence for an empty input, all
    zeros when every entry is NaN, and 5.0 everywhere when the input has a
    minimum equal to its maximum (NaN entries skipped). *)
Theorem normalize_degenerate_inputs (values : list pyfloat) (inverse : bool) :
  (values = [] -> _normalize_score values inverse = []) /\
  (Forall (fun v => v = NaN) values ->
   _normalize_score values inverse = repeat (Fin 0) (length values)) /\
  (forall lo hi : Q,
      is_minimum lo (numbers values) -> is_maximum hi (numbers values) ->
      lo == hi ->
      _normalize_score values inverse = repeat (Fin 5) (length values)).
Proof.
  split; [|split].
  - intros ->. reflexivity.
  - intro Hall. unfold _normalize_score.
    assert (Hnan : forallb PyFloat.isnan values = true).
    { apply forallb_forall. rewrite Forall_forall in Hall.
      intros v Hv. now rewrite (Hall v Hv). }
    rewrite Hnan, orb_true_r. reflexivity.
  - intros lo hi Hlo Hhi Heq.
    assert (Hne : numbers values <> []).
    { destruct Hlo as [Hex _]. intro Hnil. rewrite Hnil in Hex.
      inversion Hex. }
    destruct (normalize_with_numbers values inverse Hne)
      as [m [M [Hm [HM ->]]]].
    assert (HMm : Qeq_bool M m = true).
    { apply Qeq_bool_iff.
      rewrite (is_minimum_unique _ _ _ Hm Hlo).
      rewrite (is_maximum_unique _ _ _ HM Hhi). now symmetry. }
    rewrite HMm. reflexivity.
Qed.

Lemma normalize_degenerate_inputs_witness :
  _normalize_score [Fin 3; NaN; Fin (6 # 2)] false = [Fin 5; Fin 5; Fin 5].
Proof.
  apply (proj2 (proj2 (normalize_degenerate_inputs
                         [Fin 3; NaN; Fin (6 # 2)] false)) 3 (6 # 2)).
  - split; [apply Exists_cons_hd; reflexivity|].
    repeat constructor; vm_compute; discriminate.
  - split; [apply Exists_cons_hd; reflexivity|].
    repeat constructor; vm_compute; discriminate.
  - reflexivity.
Defined.




(** ** Running maximum with the builtin [max] *)

Lemma fold_left_map_arg {A B C : Type} (g : A -> C -> A) (f : B -> C)
  (l : list B) (a : A) :
  fold_left (fun acc x => g acc (f x)) l a = fold_left g (map f l) a.
Proof.
  revert a. induction l as [|x l IH]; intro a; simpl; [reflexivity|].
  apply IH.
Qed.

Lemma pymax_fin (a b : Q) :
  PyFloat.max (Fin a) (Fin b) = if Qltb a b then Fin b else Fin a.
Proof. reflexivity. Qed.

Lemma pymax_nan (a : Q) : PyFloat.max (Fin a) NaN = Fin a.
Proof. reflexivity. Qed.

Lemma pymax_fold (cs : list pyfloat) (a : Q) :
  exists s, fold_left PyFloat.max cs (Fin a) = Fin s /\
            is_maximum s (a :: numbers cs).
Proof.
  revert a. induction cs as [|[b|] cs IH]; intro a.
  - exists a. split; [reflexivity|].
    split; [apply Exists_cons_hd; reflexivity|].
    constructor; [lra | constructor].
  - simpl fold_left. rewrite pymax_fin, numbers_cons_fin.
    destruct (Qltb a b) eqn:E.
    + apply Qltb_lt in E. destruct (IH b) as [s [Hs [Hex Hall]]].
      exists s. split; [exact Hs|].
      inversion Hall as [|? ? Hb Htl]; subst.
      split; [now apply Exists_cons_tl|].
      constructor; [lra | now constructor].
    + apply Qltb_ge in E. destruct (IH a) as [s [Hs [Hex Hall]]].
      exists s. split; [exact Hs|].
      inversion Hall as [|? ? Ha Htl]; subst.
      split.
      * inversion Hex as [? ? Hhd | ? ? Htl']; subst.
        -- now apply Exists_cons_hd.
        -- now do 2 apply Exists_cons_tl.
      * constructor; [lra|]. constructor; [lra | exact Htl].
  - simpl fold_left. rewrite pymax_nan, numbers_cons_nan. apply IH.
Qed.

Section ProximityFacts.

Context {G : Type} `{Geometry G} `{FloatOfStr}.

Lemma community_cell_score_fold (layer : list (Feature G))
  (grid_cell : Feature G) :
  community_cell_score layer grid_cell =
  fold_left PyFloat.max (community_contributions layer grid_cell) (Fin 0).
Proof. apply fold_left_map_arg. Qed.

Lemma egress_cell_score_fold (layer : list (Feature G))
  (grid_cell : Feature G) :
  egress_cell_score layer grid_cell =
  fold_left PyFloat.max (egress_contributions layer grid_cell) (Fin 0).
Proof. apply fold_left_map_arg. Qed.

Lemma utility_layers_fold (grid_cell : Feature G)
  (layers : list (list (Feature G) * Q * string)) (start : pyfloat) :
  fold_left
    (fun max_score layer =>
       let '(utility_layer, base_priority, _) := layer in
       fold_left
         (fun max_score utility =>
            PyFloat.max max_score
              (utility_feature_score base_priority grid_cell utility))
         utility_layer max_score)
    layers start
  = fold_left PyFloat.max
      (flat_map (fun layer : list (Feature G) * Q * string =>
                   map (utility_feature_score (snd (fst layer)) grid_cell)
                       (fst (fst layer)))
                layers)
      start.
Proof.
  revert start. induction layers as [|[[layer base] name] layers IH];
    intro start; [reflexivity|].
  simpl fold_left at 1. rewrite IH. simpl flat_map.
  rewrite fold_left_app. f_equal. apply fold_left_map_arg.
Qed.

Lemma utility_cell_score_fold (u : Utilities) (grid_cell : Feature G) :
  utility_cell_score u grid_cell =
  fold_left PyFloat.max (utility_contributions u grid_cell) (Fin 0).
Proof. apply utility_layers_fold. Qed.

End ProximityFacts.

(** ** Attribute resolution *)

Lemma resolve_default `{FloatOfStr} (tokens : list string) (default : pyfloat)
  (cols : list (string * attr_value)) :
  unresolved tokens cols -> resolve tokens default cols = default.
Proof.
  induction 1 as [|[col v] cols Hc _ IH]; simpl; [reflexivity|].
  simpl in Hc. destruct Hc as [-> | ->]; [exact IH|].
  destruct (matches tokens col); exact IH.
Qed.

Lemma resolve_first `{FloatOfStr} (tokens : list string) (default : pyfloat)
  (pre post : list (string * attr_value)) (col : string) (v : attr_value)
  (x : pyfloat) :
  unresolved tokens pre -> matches tokens col = true -> py_float v = Some x ->
  resolve tokens default (pre ++ (col, v) :: post) = x.
Proof.
  intros Hpre Hcol Hv.
  induction Hpre as [|[c w] pre Hc _ IH]; simpl.
  - now rewrite Hcol, Hv.
  - simpl in Hc. destruct Hc as [-> | ->]; [exact IH|].
    destruct (matches tokens c); exact IH.
Qed.

(** ** Same-value reasoning on doubles *)

Lemma same_refl (x : pyfloat) : PyFloat.same x x.
Proof. destruct x; simpl; [reflexivity | exact I]. Qed.

Lemma same_mul_fin (m : pyfloat) (a b : Q) :
  a == b -> PyFloat.same (m .* Fin a) (m .* Fin b).
Proof.
  intro Hab. destruct m as [q|]; simpl; [|exact I]. now rewrite Hab.
Qed.

Lemma running_max_nonneg (cs : list pyfloat) :
  exists s, fold_left PyFloat.max cs (Fin 0) = Fin s /\ 0 <= s.
Proof.
  destruct (pymax_fold cs 0) as [s [Hs [_ Hall]]].
  exists s. split; [exact Hs|]. now inversion Hall.
Qed.

(** C10: the community, egress and utility raw scores of a cell are
    non-negative numbers whatever the layers hold, negative or NaN
    magnitudes included: the running maximum starts at 0 and the builtin
    [max] only replaces it by a strictly greater value. *)
Theorem proximity_scores_nonnegative {G : Type} `{Geometry G} `{FloatOfStr}
  (L : Layers) (grid_cell : Feature G) :
  (exists s, community_cell_score (community_features L) grid_cell = Fin s
             /\ 0 <= s) /\
  (exists s, egress_cell_score (egress_routes L) grid_cell = Fin s
             /\ 0 <= s) /\
  (exists s, utility_cell_score (utilities L) grid_cell = Fin s /\ 0 <= s).
Proof.
  rewrite community_cell_score_fold, egress_cell_score_fold,
    utility_cell_score_fold.
  repeat split; apply running_max_nonneg.
Qed.

(** ** Distance decay *)

Section DecayFacts.

Context {G : Type} `{Geometry G} `{FloatOfStr}.

Lemma community_feature_score_decay (grid_cell feature : Feature G) :
  PyFloat.same
    (community_feature_score grid_cell feature)
    (decay_contribution 100 300 (importance_of feature)
       (touching grid_cell feature)
       (distance (geometry grid_cell) (geometry feature))).
Proof.
  unfold community_feature_score, decay_contribution, touching.
  destruct (Qeq_bool _ 0 || intersects _ _); [apply same_refl|].
  destruct (Qltb _ 100); [apply same_refl|].
  destruct (Qltb _ 300); [|apply same_refl].
  apply same_mul_fin.
  setoid_replace (300 - 100) with 200 by reflexivity. reflexivity.
Qed.

Lemma egress_route_score_decay (grid_cell route : Feature G) :
  PyFloat.same
    (egress_route_score grid_cell route)
    (decay_contribution 50 150 (priority_of route)
       (touching grid_cell route)
       (distance (geometry grid_cell) (geometry route))).
Proof.
  unfold egress_route_score, decay_contribution, touching.
  destruct (Qeq_bool _ 0 || intersects _ _); [apply same_refl|].
  destruct (Qltb _ 50); [apply same_refl|].
  destruct (Qltb _ 150); [|apply same_refl].
  apply same_mul_fin.
  setoid_replace (150 - 50) with 100 by reflexivity. reflexivity.
Qed.

Lemma utility_feature_score_decay (base_priority : Q)
  (grid_cell utility : Feature G) :
  PyFloat.same
    (utility_feature_score base_priority grid_cell utility)
    (decay_contribution 30 100 (Fin base_priority)
       (touching grid_cell utility)
       (distance (geometry grid_cell) (geometry utility))).
Proof.
  unfold utility_feature_score, decay_contribution, touching.
  destruct (Qeq_bool _ 0 || intersects _ _); [apply same_refl|].
  destruct (Qltb _ 30); [apply same_refl|].
  destruct (Qltb _ 100); [|apply same_refl].
  simpl. setoid_replace (100 - 30) with 70 by reflexivity. reflexivity.
Qed.

End DecayFacts.

(** C5, as the code has it: each per-feature contribution follows the
    two-segment decay with radii (100, 300) for community features,
    (50, 150) for egress routes and (30, 100) for every utility sub-layer;
    the magnitude is the resolved attribute (10 when no column resolves) or
    the sub-layer's fixed base priority; and the cell's raw score is the
    maximum of 0 and the numeric contributions, never their sum. *)
Theorem proximity_score_is_max_of_zero_and_decay
  {G : Type} `{Geometry G} `{FloatOfStr}
  (L : Layers) (grid_cell feature : Feature G) (base_priority : Q) :
  (PyFloat.same
     (community_feature_score grid_cell feature)
     (decay_contribution 100 300 (importance_of feature)
        (touching grid_cell feature)
        (distance (geometry grid_cell) (geometry feature))) /\
   PyFloat.same
     (egress_route_score grid_cell feature)
     (decay_contribution 50 150 (priority_of feature)
        (touching grid_cell feature)
        (distance (geometry grid_cell) (geometry feature))) /\
   PyFloat.same
     (utility_feature_score base_priority grid_cell feature)
     (decay_contribution 30 100 (Fin base_priority)
        (touching grid_cell feature)
        (distance (geometry grid_cell) (geometry feature)))) /\
  ((unresolved ["import"; "prior"; "weight"]%string (columns feature) ->
    importance_of feature = Fin 10) /\
   (unresolved ["prior"; "import"; "class"]%string (columns feature) ->
    priority_of feature = Fin 10) /\
   map (fun layer => (snd layer, snd (fst layer)))
       (utility_layers (utilities L))
   = [("Transmission"%string, 10); ("Sub-Transmission"%string, 8);
      ("Distribution"%string, 6); ("Substations"%string, 10);
      ("Pole-Top Subs"%string, 7)]) /\
  ((exists s,
       community_cell_score (community_features L) grid_cell = Fin s /\
       is_maximum s
         (0 :: numbers
                 (community_contributions (community_features L) grid_cell)))
   /\
   (exists s,
       egress_cell_score (egress_routes L) grid_cell = Fin s /\
       is_maximum s
         (0 :: numbers (egress_contributions (egress_routes L) grid_cell)))
   /\
   (exists s,
       utility_cell_score (utilities L) grid_cell = Fin s /\
       is_maximum s
         (0 :: numbers (utility_contributions (utilities L) grid_cell)))).
Proof.
  split; [|split].
  - split; [|split].
    + apply community_feature_score_decay.
    + apply egress_route_score_decay.
    + apply utility_feature_score_decay.
  - split; [|split].
    + apply resolve_default.
    + apply resolve_default.
    + reflexivity.
  - rewrite community_cell_score_fold, egress_cell_score_fold,
      utility_cell_score_fold.
    repeat split; apply pymax_fold.
Qed.

Lemma proximity_score_is_max_of_zero_and_decay_witness :
  priority_of nearby_route = Fin 10 /\
  egress_cell_score [nearby_route] probe_cell = Fin (250 # 50).
Proof.
  split; [|reflexivity].
  apply (proximity_score_is_max_of_zero_and_decay
           {| tree_mortality := []; community_features := [];
              egress_routes := [nearby_route]; populated_areas := [];
              utilities := {| transmission := []; sub_transmission := [];
                              dist_circuits := []; substations := [];
                              pole_top_subs := [] |} |}
           probe_cell nearby_route 10).
  repeat constructor.
Defined.

(** C5 as worded fails when every contribution is negative: a community
    site touching the cell with importance -5 contributes -5, and the
    cell's score is 0, which is not the maximum over the features. *)
Lemma community_score_above_every_contribution :
  community_contributions [negative_site] probe_cell = [Fin (-5)] /\
  community_cell_score [negative_site] probe_cell = Fin 0 /\
  ~ is_maximum 0
      (numbers (community_contributions [negative_site] probe_cell)).
Proof.
  split; [reflexivity|]. split; [reflexivity|].
  intros [Hex _]. vm_compute in Hex.
  inversion Hex as [? ? Hhd | ? ? Htl]; subst.
  - discriminate Hhd.
  - inversion Htl.
Qed.

(** ** Sums *)

Lemma same_sym (x y : pyfloat) : PyFloat.same x y -> PyFloat.same y x.
Proof. destruct x, y; simpl; auto. intro Hxy. now symmetry. Qed.

Lemma same_trans (x y z : pyfloat) :
  PyFloat.same x y -> PyFloat.same y z -> PyFloat.same x z.
Proof.
  destruct x, y, z; simpl; auto; try tauto.
  intros Hxy Hyz. now rewrite Hxy.
Qed.

Lemma same_add (x x' y y' : pyfloat) :
  PyFloat.same x x' -> PyFloat.same y y' -> PyFloat.same (x .+ y) (x' .+ y').
Proof.
  destruct x, x', y, y'; simpl; auto; try tauto.
  intros Hx Hy. now rewrite Hx, Hy.
Qed.

Lemma add_assoc_same (x y z : pyfloat) :
  PyFloat.same (x .+ y .+ z) (x .+ (y .+ z)).
Proof.
  destruct x, y, z; simpl; auto. ring.
Qed.

Lemma add_zero_r_same (x : pyfloat) : PyFloat.same (x .+ Fin 0) x.
Proof. destruct x; simpl; auto. ring. Qed.

Lemma add_zero_l_same (x : pyfloat) : PyFloat.same (Fin 0 .+ x) x.
Proof. destruct x; simpl; auto. ring. Qed.

Lemma fold_left_add_fsum (l : list pyfloat) (a : pyfloat) :
  PyFloat.same (fold_left PyFloat.add l a) (a .+ fsum l).
Proof.
  revert a. induction l as [|x l IH]; intro a; simpl.
  - apply same_sym, add_zero_r_same.
  - eapply same_trans; [apply IH|]. apply add_assoc_same.
Qed.

(** ** Tree mortality *)

Section MortalityFacts.

Context {G : Type} `{Geometry G} `{FloatOfStr}.

Lemma mortality_accumulate_from (grid_cell : Feature G)
  (overlaps : list (Feature G)) (w0 : pyfloat) (t0 : Q) :
  let acc :=
    fold_left
      (fun acc mortality_area =>
         let intersection_area :=
           intersection_area (geometry grid_cell) (geometry mortality_area) in
         let mortality_value := mortality_value_of mortality_area in
         (fst acc .+ mortality_value .* Fin intersection_area,
          snd acc + intersection_area))
      overlaps (w0, t0) in
  let pairs := mortality_overlaps grid_cell overlaps in
  PyFloat.same (fst acc)
    (w0 .+ fsum (map (fun p => fst p .* Fin (snd p)) pairs)) /\
  snd acc == t0 + qsum (map snd pairs).
Proof.
  revert w0 t0. induction overlaps as [|m ov IH]; intros w0 t0; simpl.
  - split; [apply same_sym, add_zero_r_same | ring].
  - destruct (IH (w0 .+ mortality_value_of m .*
                    Fin (intersection_area (geometry grid_cell) (geometry m)))
                 (t0 + intersection_area (geometry grid_cell) (geometry m)))
      as [Hw Ht].
    split.
    + eapply same_trans; [exact Hw|]. apply add_assoc_same.
    + rewrite Ht. ring.
Qed.

Lemma mortality_accumulate_sums (grid_cell : Feature G)
  (overlaps : list (Feature G)) :
  let pairs := mortality_overlaps grid_cell overlaps in
  PyFloat.same (fst (mortality_accumulate grid_cell overlaps))
    (fsum (map (fun p => fst p .* Fin (snd p)) pairs)) /\
  snd (mortality_accumulate grid_cell overlaps) == qsum (map snd pairs).
Proof.
  destruct (mortality_accumulate_from grid_cell overlaps (Fin 0) 0)
    as [Hw Ht].
  split.
  - eapply same_trans; [exact Hw | apply add_zero_l_same].
  - unfold mortality_accumulate. rewrite Ht. ring.
Qed.

Lemma py_div_positive (w w' : pyfloat) (t t' : Q) :
  PyFloat.same w w' -> t == t' -> 0 < t ->
  exists s, py_div w t = Ok s /\ PyFloat.same s (w' ./ Fin t').
Proof.
  intros Hw Ht Hpos. unfold py_div.
  assert (E : Qeq_bool t 0 = false) by (apply Qeq_bool_false; lra).
  assert (E' : Qeq_bool t' 0 = false) by (apply Qeq_bool_false; lra).
  rewrite E. eexists. split; [reflexivity|].
  destruct w as [a|], w' as [a'|]; simpl in *; try tauto.
  rewrite E'. simpl. now rewrite Hw, Ht.
Qed.

Lemma mortality_cell_score_cases (layer : list (Feature G))
  (grid_cell : Feature G) :
  let overlaps :=
    filter (fun m => intersects (geometry m) (geometry grid_cell)) layer in
  let acc := mortality_accumulate grid_cell overlaps in
  mortality_cell_score layer grid_cell =
  if Qltb 0 (snd acc) then py_div (fst acc) (snd acc) else Ok (Fin 0).
Proof.
  unfold mortality_cell_score.
  destruct (filter _ layer) as [|m ov]; reflexivity.
Qed.

End MortalityFacts.

(** C4: the tree-mortality raw score of a cell is the area-weighted average
    sum(magnitude * intersection area) / sum(intersection area) over the
    mortality features that intersect it, each magnitude resolved from the
    feature's columns with default 0; it is 0 when nothing intersects the
    cell or the total intersection area is zero (or below).  Magnitudes 4 over
    area 60
    and 8 over area 40 give 5.6. *)
Theorem mortality_score_area_weighted {G : Type} `{Geometry G} `{FloatOfStr}
  (layer : list (Feature G)) (grid_cell : Feature G) :
  let overlaps :=
    filter (fun m => intersects (geometry m) (geometry grid_cell)) layer in
  let pairs := mortality_overlaps grid_cell overlaps in
  let total := qsum (map snd pairs) in
  (forall m : Feature G,
      unresolved ["mort"; "value"; "rate"]%string (columns m) ->
      mortality_value_of m = Fin 0) /\
  (overlaps = [] -> mortality_cell_score layer grid_cell = Ok (Fin 0)) /\
  (total <= 0 -> mortality_cell_score layer grid_cell = Ok (Fin 0)) /\
  (0 < total ->
   exists s, mortality_cell_score layer grid_cell = Ok s /\
             PyFloat.same s (area_weighted_average pairs)) /\
  (forall m1 m2,
      overlaps = [m1; m2] ->
      mortality_value_of m1 = Fin 4 ->
      intersection_area (geometry grid_cell) (geometry m1) == 60 ->
      mortality_value_of m2 = Fin 8 ->
      intersection_area (geometry grid_cell) (geometry m2) == 40 ->
      exists s, mortality_cell_score layer grid_cell = Ok s /\
                PyFloat.same s (Fin (56 # 10))).
Proof.
  intros overlaps pairs total.
  pose proof (mortality_cell_score_cases layer grid_cell) as Hcases.
  cbv zeta in Hcases. fold overlaps in Hcases.
  destruct (mortality_accumulate_sums grid_cell overlaps) as [Hw Ht].
  fold pairs in Hw, Ht. fold total in Ht.
  assert (Hpos : 0 < total ->
                 exists s, mortality_cell_score layer grid_cell = Ok s /\
                           PyFloat.same s (area_weighted_average pairs)).
  { intro Hlt. rewrite Hcases.
    assert (E : Qltb 0 (snd (mortality_accumulate grid_cell overlaps)) = true)
      by (apply Qltb_lt; lra).
    rewrite E. apply py_div_positive; [exact Hw | exact Ht | lra]. }
  split; [|split; [|split; [|split]]].
  - intros m Hm. now apply resolve_default.
  - intro Hnil. unfold mortality_cell_score. fold overlaps.
    rewrite Hnil. reflexivity.
  - intro Hzero. rewrite Hcases.
    assert (E : Qltb 0 (snd (mortality_accumulate grid_cell overlaps)) = false)
      by (apply Qltb_ge; lra).
    now rewrite E.
  - exact Hpos.
  - intros m1 m2 Hov Hv1 Ha1 Hv2 Ha2.
    assert (Htot : total == 100).
    { unfold total, pairs. rewrite Hov. simpl. rewrite Ha1, Ha2.
      reflexivity. }
    destruct Hpos as [s [Hs Hsame]]; [lra|].
    exists s. split; [exact Hs|].
    eapply same_trans; [exact Hsame|].
    unfold area_weighted_average. fold total.
    unfold pairs. rewrite Hov. simpl. rewrite Hv1, Hv2. simpl.
    assert (E : Qeq_bool total 0 = false) by (apply Qeq_bool_false; lra).
    rewrite E. simpl. rewrite Htot, Ha1, Ha2. reflexivity.
Qed.

Lemma mortality_score_area_weighted_witness :
  exists s, mortality_cell_score overlay_mortality overlay_cell = Ok s /\
            PyFloat.same s (Fin (56 # 10)).
Proof.
  refine (proj2 (proj2 (proj2 (proj2
            (mortality_score_area_weighted overlay_mortality overlay_cell))))
            _ _ _ _ _ _ _); reflexivity.
Defined.

(** ** Populated areas *)

Section PopulationFacts.

Context {G : Type} `{Geometry G} `{FloatOfStr}.

Lemma population_loop_sum (grid_cell : Feature G) (layer : list (Feature G))
  (t0 : pyfloat) :
  ~ area (geometry grid_cell) == 0 ->
  exists s,
    population_loop grid_cell t0 layer = Ok s /\
    PyFloat.same s
      (t0 .+ ratio_density_sum
               (population_terms grid_cell
                  (filter (fun a => intersects (geometry grid_cell)
                                               (geometry a)) layer))).
Proof.
  intro Harea.
  assert (E : Qeq_bool (area (geometry grid_cell)) 0 = false)
    by now apply Qeq_bool_false.
  revert t0. induction layer as [|a layer IH]; intro t0.
  - exists t0. split; [reflexivity | apply same_sym, add_zero_r_same].
  - simpl population_loop. unfold population_step. simpl filter.
    destruct (intersects (geometry grid_cell) (geometry a)).
    + unfold py_div. rewrite E. simpl bind.
      destruct (IH (t0 .+ Fin (intersection_area (geometry grid_cell)
                                                 (geometry a)
                               / area (geometry grid_cell))
                          .* pop_density_of a)) as [s [Hs Hsame]].
      exists s. split; [exact Hs|].
      eapply same_trans; [exact Hsame|]. apply add_assoc_same.
    + simpl bind. apply IH.
Qed.

Lemma population_loop_no_hit (grid_cell : Feature G)
  (layer : list (Feature G)) (t0 : pyfloat) :
  filter (fun a => intersects (geometry grid_cell) (geometry a)) layer = [] ->
  population_loop grid_cell t0 layer = Ok t0.
Proof.
  induction layer as [|a layer IH]; intro Hnil; [reflexivity|].
  simpl in Hnil. simpl population_loop. unfold population_step.
  destruct (intersects (geometry grid_cell) (geometry a));
    [discriminate | simpl bind; now apply IH].
Qed.

Lemma population_loop_zero_area (grid_cell : Feature G)
  (layer : list (Feature G)) (t0 : pyfloat) :
  area (geometry grid_cell) == 0 ->
  Exists (fun a => intersects (geometry grid_cell) (geometry a) = true) layer ->
  population_loop grid_cell t0 layer = Raise ZeroDivisionError.
Proof.
  intros Harea Hex.
  assert (E : Qeq_bool (area (geometry grid_cell)) 0 = true)
    by now apply Qeq_bool_iff.
  revert t0. induction layer as [|a layer IH]; intro t0; [inversion Hex|].
  simpl population_loop. unfold population_step.
  destruct (intersects (geometry grid_cell) (geometry a)) eqn:Hhit.
  - unfold py_div. rewrite E. reflexivity.
  - simpl bind. apply IH.
    inversion Hex as [? ? Hhd | ? ? Htl]; subst; [congruence | exact Htl].
Qed.

Lemma mortality_cell_score_returns (layer : list (Feature G))
  (grid_cell : Feature G) :
  exists s, mortality_cell_score layer grid_cell = Ok s.
Proof.
  rewrite mortality_cell_score_cases. cbv zeta.
  destruct (Qltb 0 _) eqn:E; [|now eexists].
  apply Qltb_lt in E. unfold py_div.
  assert (E0 : Qeq_bool
                 (snd (mortality_accumulate grid_cell
                         (filter (fun m => intersects (geometry m)
                                                      (geometry grid_cell))
                                 layer))) 0 = false)
    by (apply Qeq_bool_false; lra).
  rewrite E0. now eexists.
Qed.

End PopulationFacts.

(** C6: the populated-areas raw score of a cell accumulates
    ratio * density over the populated areas that intersect it, with
    ratio = intersection area / cell area and the density resolved from the
    columns (default 10); a cell that meets no populated area scores 0.
    Ratio 1 at density 6 plus ratio 1/2 at density 4 gives 8.  (The ratio
    needs a cell of non-zero area.) *)
Theorem population_score_accumulates {G : Type} `{Geometry G} `{FloatOfStr}
  (layer : list (Feature G)) (grid_cell : Feature G) :
  let hits :=
    filter (fun a => intersects (geometry grid_cell) (geometry a)) layer in
  let terms := population_terms grid_cell hits in
  (forall a : Feature G,
      unresolved ["pop"; "dens"; "people"]%string (columns a) ->
      pop_density_of a = Fin 10) /\
  (hits = [] -> population_cell_score layer grid_cell = Ok (Fin 0)) /\
  (~ area (geometry grid_cell) == 0 ->
   exists s, population_cell_score layer grid_cell = Ok s /\
             PyFloat.same s (ratio_density_sum terms)) /\
  (forall r1 r2 d1 d2,
      terms = [(r1, Fin d1); (r2, Fin d2)] ->
      ~ area (geometry grid_cell) == 0 ->
      r1 == 1 -> d1 == 6 -> r2 == 1 # 2 -> d2 == 4 ->
      exists s, population_cell_score layer grid_cell = Ok s /\
                PyFloat.same s (Fin 8)).
Proof.
  intros hits terms.
  assert (Hsum : ~ area (geometry grid_cell) == 0 ->
                 exists s, population_cell_score layer grid_cell = Ok s /\
                           PyFloat.same s (ratio_density_sum terms)).
  { intro Harea.
    destruct (population_loop_sum grid_cell layer (Fin 0) Harea)
      as [s [Hs Hsame]].
    exists s. split; [exact Hs|].
    eapply same_trans; [exact Hsame | apply add_zero_l_same]. }
  split; [|split; [|split]].
  - intros a Ha. now apply resolve_default.
  - intro Hnil. now apply population_loop_no_hit.
  - exact Hsum.
  - intros r1 r2 d1 d2 Hterms Harea Hr1 Hd1 Hr2 Hd2.
    destruct (Hsum Harea) as [s [Hs Hsame]].
    exists s. split; [exact Hs|].
    eapply same_trans; [exact Hsame|].
    rewrite Hterms. simpl. rewrite Hr1, Hd1, Hr2, Hd2. reflexivity.
Qed.

Lemma population_score_accumulates_witness :
  exists s, population_cell_score populated_scenario probe_cell = Ok s /\
            PyFloat.same s (Fin 8).
Proof.
  refine (proj2 (proj2 (proj2
            (population_score_accumulates populated_scenario probe_cell)))
            (10 / 10) (5 / 10) 6 4 _ _ _ _ _ _);
    try reflexivity.
  vm_compute. discriminate.
Defined.

(** ** Exceptions across a pass *)

Lemma mapM_returns {A B : Type} (f : A -> result B) (l : list A) :
  (forall a, exists b, f a = Ok b) ->
  exists bs, mapM f l = Ok bs /\ length bs = length l.
Proof.
  intro Hf. induction l as [|a l [bs [IH Hlen]]].
  - now exists [].
  - destruct (Hf a) as [b Hb]. exists (b :: bs).
    simpl. rewrite Hb, IH. simpl. split; [reflexivity | now f_equal].
Qed.

Lemma mapM_raises {A B : Type} (f : A -> result B) (l : list A) (a : A)
  (e : exn) :
  (forall x e', f x = Raise e' -> e' = e) ->
  In a l -> f a = Raise e -> mapM f l = Raise e.
Proof.
  intros Honly Hin Ha. induction l as [|x l IH]; [destruct Hin|].
  simpl. destruct (f x) as [b|e'] eqn:Hx.
  - destruct Hin as [-> | Hin]; [congruence|].
    simpl. now rewrite (IH Hin).
  - simpl. f_equal. now apply Honly in Hx.
Qed.

Lemma print_summary_nonempty (scores : list pyfloat) :
  scores <> [] -> print_summary scores = Ok tt.
Proof. destruct scores; [congruence | reflexivity]. Qed.

Section PassFacts.

Context {G : Type} `{Geometry G} `{FloatOfStr}.

Lemma population_loop_only_zero_division (grid_cell : Feature G)
  (layer : list (Feature G)) (t0 : pyfloat) (e : exn) :
  population_loop grid_cell t0 layer = Raise e -> e = ZeroDivisionError.
Proof.
  revert t0. induction layer as [|a layer IH]; intro t0; [discriminate|].
  simpl population_loop. unfold population_step, py_div.
  destruct (intersects (geometry grid_cell) (geometry a)).
  - destruct (Qeq_bool (area (geometry grid_cell)) 0).
    + simpl. congruence.
    + simpl bind. apply IH.
  - simpl bind. apply IH.
Qed.

Lemma mortality_pass_returns (L : Layers) (cutting_grid : list (Feature G)) :
  cutting_grid <> [] ->
  exists m, calculate_tree_mortality_score L cutting_grid = Ok m.
Proof.
  intro Hne. unfold calculate_tree_mortality_score.
  destruct (mapM_returns (mortality_cell_score (tree_mortality L))
              cutting_grid (mortality_cell_score_returns (tree_mortality L)))
    as [scores [-> Hlen]].
  cbn [bind]. rewrite print_summary_nonempty; [now eexists|].
  destruct scores; [|discriminate].
  destruct cutting_grid; [congruence | discriminate].
Qed.

Lemma population_pass_raises (L : Layers) (cutting_grid : list (Feature G))
  (grid_cell : Feature G) :
  In grid_cell cutting_grid ->
  population_cell_score (populated_areas L) grid_cell
  = Raise ZeroDivisionError ->
  calculate_population_score L cutting_grid = Raise ZeroDivisionError.
Proof.
  intros Hin Hcell. unfold calculate_population_score.
  rewrite (mapM_raises _ _ grid_cell ZeroDivisionError); try assumption;
    [reflexivity|].
  intros x e'. apply population_loop_only_zero_division.
Qed.

Lemma run_analysis_population_raises (weights : Weights) (L : Layers)
  (cutting_grid : list (Feature G)) (grid_cell : Feature G) :
  In grid_cell cutting_grid ->
  population_cell_score (populated_areas L) grid_cell
  = Raise ZeroDivisionError ->
  run_analysis weights L cutting_grid = Raise ZeroDivisionError.
Proof.
  intros Hin Hcell.
  assert (Hne : cutting_grid <> []) by (intros ->; destruct Hin).
  unfold run_analysis.
  destruct (mortality_pass_returns L cutting_grid Hne) as [m ->].
  cbn [bind].
  unfold calculate_community_score, calculate_egress_score.
  rewrite !print_summary_nonempty; cbn [bind];
    try (destruct cutting_grid; [congruence | discriminate]).
  now rewrite (population_pass_raises L cutting_grid grid_cell Hin Hcell).
Qed.

End PassFacts.

(** C3, on the code: the mortality scorer guards its division and always
    returns a score, but the populated-areas scorer divides by the cell
    area unguarded, so a zero-area cell that meets a populated area raises
    [ZeroDivisionError] instead of scoring 0, and the whole analysis stops
    with that exception. *)
Theorem zero_area_cell_raises_in_population_scorer
  {G : Type} `{Geometry G} `{FloatOfStr}
  (weights : Weights) (L : Layers) (cutting_grid : list (Feature G))
  (grid_cell : Feature G) :
  (exists s, mortality_cell_score (tree_mortality L) grid_cell = Ok s) /\
  (area (geometry grid_cell) == 0 ->
   Exists (fun a => intersects (geometry grid_cell) (geometry a) = true)
          (populated_areas L) ->
   population_cell_score (populated_areas L) grid_cell
   = Raise ZeroDivisionError /\
   (In grid_cell cutting_grid ->
    run_analysis weights L cutting_grid = Raise ZeroDivisionError)).
Proof.
  split.
  - apply mortality_cell_score_returns.
  - intros Harea Hex.
    assert (Hcell : population_cell_score (populated_areas L) grid_cell
                    = Raise ZeroDivisionError)
      by now apply population_loop_zero_area.
    split; [exact Hcell|].
    intro Hin. now apply run_analysis_population_raises with grid_cell.
Qed.

Lemma zero_area_cell_raises_in_population_scorer_witness :
  population_cell_score populated_block degenerate_cell
  = Raise ZeroDivisionError /\
  run_analysis init_weights degenerate_layers [probe_cell; degenerate_cell]
  = Raise ZeroDivisionError.
Proof.
  destruct (zero_area_cell_raises_in_population_scorer
              init_weights degenerate_layers [probe_cell; degenerate_cell]
              degenerate_cell) as [_ Hraise].
  destruct Hraise as [Hcell Hrun].
  - reflexivity.
  - apply Exists_cons_hd. reflexivity.
  - split; [exact Hcell|]. apply Hrun. right. left. reflexivity.
Defined.

(** ** Sorting in descending order and grouping ties *)

Lemma insert_desc_in (x z : Q) (l : list Q) :
  In z (insert_desc x l) <-> z = x \/ In z l.
Proof.
  induction l as [|y r IH]; simpl.
  - intuition.
  - destruct (Qle_bool y x); simpl; [intuition|].
    rewrite IH. intuition.
Qed.

Lemma sort_desc_in (z : Q) (l : list Q) : In z (sort_desc l) <-> In z l.
Proof.
  induction l as [|x l IH]; simpl; [tauto|].
  rewrite insert_desc_in, IH. intuition.
Qed.

Lemma insert_desc_sorted (x : Q) (l : list Q) :
  StronglySorted ge_first l -> StronglySorted ge_first (insert_desc x l).
Proof.
  induction 1 as [|y r Hr IH Hall]; simpl.
  - constructor; constructor.
  - destruct (Qle_bool y x) eqn:E.
    + apply Qle_bool_iff in E. constructor; [now constructor|].
      constructor; [exact E|].
      rewrite Forall_forall in Hall |- *. intros z Hz.
      specialize (Hall z Hz). unfold ge_first in *. lra.
    + apply Qle_bool_gt in E. constructor; [exact IH|].
      apply Forall_forall. intros z Hz. apply insert_desc_in in Hz.
      destruct Hz as [-> | Hz]; unfold ge_first.
      * lra.
      * rewrite Forall_forall in Hall. now apply Hall.
Qed.

Lemma sort_desc_sorted (l : list Q) : StronglySorted ge_first (sort_desc l).
Proof.
  induction l as [|x l IH]; simpl; [constructor|].
  now apply insert_desc_sorted.
Qed.

Lemma groups_in (z : Q) (l : list Q) : In z (groups l) -> In z l.
Proof.
  induction l as [|x r IH]; [tauto|].
  destruct r as [|y r'].
  - simpl. tauto.
  - change (groups (x :: y :: r'))
      with (if Qeq_bool x y then groups (y :: r') else x :: groups (y :: r')).
    destruct (Qeq_bool x y).
    + intro Hz. right. now apply IH.
    + intros [-> | Hz]; [now left | right; now apply IH].
Qed.

Lemma groups_represent (l : list Q) (z : Q) :
  In z l -> exists d, In d (groups l) /\ d == z.
Proof.
  revert z. induction l as [|x r IH]; intro z; [intros []|].
  destruct r as [|y r'].
  - intros [-> | []]. exists z. split; [now left | reflexivity].
  - change (groups (x :: y :: r'))
      with (if Qeq_bool x y then groups (y :: r') else x :: groups (y :: r')).
    intros [-> | Hz].
    + destruct (Qeq_bool z y) eqn:E.
      * apply Qeq_bool_iff in E.
        destruct (IH y (or_introl eq_refl)) as [d [Hd Hdy]].
        exists d. split; [exact Hd | now rewrite Hdy, E].
      * exists z. split; [now left | reflexivity].
    + destruct (IH z Hz) as [d [Hd Hdz]].
      exists d. split; [|exact Hdz].
      destruct (Qeq_bool x y); [exact Hd | now right].
Qed.

Lemma groups_strict (l : list Q) :
  StronglySorted ge_first l -> StronglySorted gt_first (groups l).
Proof.
  induction 1 as [|x r Hr IH Hall]; [constructor|].
  destruct r as [|y r'].
  - simpl. constructor; constructor.
  - change (groups (x :: y :: r'))
      with (if Qeq_bool x y then groups (y :: r') else x :: groups (y :: r')).
    destruct (Qeq_bool x y) eqn:E; [exact IH|].
    apply Qeq_bool_false in E.
    constructor; [exact IH|].
    apply Forall_forall. intros z Hz. apply groups_in in Hz.
    inversion Hall as [|? ? Hyx Hrest]; subst.
    inversion Hr as [|? ? _ Hy]; subst.
    unfold gt_first, ge_first in *.
    destruct Hz as [<- | Hz].
    + destruct (Qlt_le_dec y x) as [Hlt | Hge]; [exact Hlt|].
      exfalso. apply E. lra.
    + rewrite Forall_forall in Hy. specialize (Hy z Hz).
      destruct (Qlt_le_dec y x) as [Hlt | Hge]; [lra|].
      exfalso. apply E. lra.
Qed.

(** ** Positions in a strictly descending list *)

Lemma index_of_compat (x y : Q) (l : list Q) :
  x == y -> index_of x l = index_of y l.
Proof.
  intro Hxy. induction l as [|d r IH]; simpl; [reflexivity|].
  assert (E : Qeq_bool x d = Qeq_bool y d).
  { destruct (Qeq_bool y d) eqn:Ey.
    - apply Qeq_bool_iff. apply Qeq_bool_iff in Ey. now rewrite Hxy.
    - apply Qeq_bool_false. apply Qeq_bool_false in Ey. now rewrite Hxy. }
  rewrite E. destruct (Qeq_bool y d); [reflexivity | now f_equal].
Qed.

Lemma index_of_bound (x : Q) (l : list Q) :
  (exists d, In d l /\ d == x) -> (index_of x l < length l)%nat.
Proof.
  induction l as [|d r IH]; simpl.
  - intros [? [[] _]].
  - intros [e [[<- | He] Hex]].
    + assert (E : Qeq_bool x d = true)
        by (apply Qeq_bool_iff; now symmetry).
      rewrite E. lia.
    + destruct (Qeq_bool x d); [lia|].
      apply -> PeanoNat.Nat.succ_lt_mono.
      apply IH. now exists e.
Qed.

Lemma index_of_strict (x y : Q) (l : list Q) :
  StronglySorted gt_first l ->
  (exists d, In d l /\ d == x) -> (exists d, In d l /\ d == y) ->
  y < x -> (index_of x l < index_of y l)%nat.
Proof.
  induction 1 as [|d r Hr IH Hall]; intros Hx Hy Hlt.
  - destruct Hx as [? [[] _]].
  - rewrite Forall_forall in Hall. unfold gt_first in Hall.
    assert (Hxd : x <= d).
    { destruct Hx as [e [[<- | He] Hex]]; [lra|].
      specialize (Hall e He). lra. }
    assert (Eyd : Qeq_bool y d = false) by (apply Qeq_bool_false; lra).
    simpl. rewrite Eyd.
    destruct (Qeq_bool x d) eqn:Exd; [lia|].
    apply Qeq_bool_false in Exd.
    apply -> PeanoNat.Nat.succ_lt_mono. apply IH; [| |exact Hlt].
    + destruct Hx as [e [[<- | He] Hex]]; [exfalso; now apply Exd|].
      now exists e.
    + destruct Hy as [e [[<- | He] Hey]]; [exfalso; lra|].
      now exists e.
Qed.

Lemma index_of_nth (l : list Q) (i : nat) :
  StronglySorted gt_first l -> (i < length l)%nat ->
  index_of (nth i l 0) l = i.
Proof.
  intro Hs. revert i. induction Hs as [|d r Hr IH Hall]; intros i Hi.
  - simpl in Hi. lia.
  - destruct i as [|i]; simpl.
    + assert (E : Qeq_bool d d = true) by (apply Qeq_bool_iff; reflexivity).
      now rewrite E.
    + simpl in Hi.
      assert (Hin : In (nth i r 0) r) by (apply nth_In; lia).
      rewrite Forall_forall in Hall. specialize (Hall _ Hin).
      unfold gt_first in Hall.
      assert (E : Qeq_bool (nth i r 0) d = false)
        by (apply Qeq_bool_false; lra).
      rewrite E. f_equal. apply IH. lia.
Qed.

(** ** The aggregator's columns *)

Lemma normalize_length (values : list pyfloat) (inverse : bool) :
  length (_normalize_score values inverse) = length values.
Proof.
  unfold _normalize_score, np_zeros, np_full.
  destruct ((length values =? 0)%nat || forallb PyFloat.isnan values);
    [apply repeat_length|].
  destruct (PyFloat.eqb _ _); [apply repeat_length|].
  destruct inverse; apply length_map.
Qed.

Lemma map_Fin_repeat (q : Q) (n : nat) :
  repeat (Fin q) n = map Fin (repeat q n).
Proof. induction n as [|n IH]; simpl; [reflexivity | now f_equal]. Qed.

Lemma normalize_numeric (qs : list Q) (inverse : bool) :
  exists out, _normalize_score (map Fin qs) inverse = map Fin out.
Proof.
  destruct qs as [|q qs]; [now exists []|].
  assert (Hne : numbers (map Fin (q :: qs)) <> [])
    by (rewrite numbers_map_Fin; discriminate).
  destruct (normalize_with_numbers (map Fin (q :: qs)) inverse Hne)
    as [m [M [_ [_ ->]]]].
  destruct (Qeq_bool M m) eqn:E.
  - eexists. apply map_Fin_repeat.
  - assert (Hd : Qeq_bool (M - m) 0 = false).
    { apply Qeq_bool_false. apply Qeq_bool_false in E. lra. }
    exists (map (linear_map m M inverse) (q :: qs)).
    rewrite !map_map.
    destruct inverse; apply map_ext; intro v; unfold linear_map;
      cbn [PyFloat.sub PyFloat.np_div PyFloat.mul]; rewrite Hd; reflexivity.
Qed.

Lemma all_numbers_or_nan (values : list pyfloat) :
  (exists qs, values = map Fin qs) \/ In NaN values.
Proof.
  induction values as [|[q|] vs IH].
  - left. now exists [].
  - destruct IH as [[qs ->] | Hnan].
    + left. now exists (q :: qs).
    + right. now right.
  - right. now left.
Qed.

Lemma astype_int_of_ranks (V : list pyfloat) (qs : list Q) :
  mapM (fun v =>
          match v with
          | Fin q => Ok (Z.quot (Qnum q) (Zpos (Qden q)))
          | NaN => Raise IntCastingNaNError
          end)
       (map (fun v =>
               match v with
               | Fin q => Fin (inject_Z (Z.of_nat (dense_rank_of V q)))
               | NaN => NaN
               end) (map Fin qs))
  = Ok (map (fun q => Z.of_nat (dense_rank_of V q)) qs).
Proof.
  induction qs as [|q qs IH]; [reflexivity|].
  cbn [map mapM bind]. rewrite IH. cbn [bind inject_Z Qnum Qden].
  now rewrite Z.quot_1_r.
Qed.

Lemma astype_int_nan (V vs : list pyfloat) :
  In NaN vs ->
  mapM (fun v =>
          match v with
          | Fin q => Ok (Z.quot (Qnum q) (Zpos (Qden q)))
          | NaN => Raise IntCastingNaNError
          end)
       (map (fun v =>
               match v with
               | Fin q => Fin (inject_Z (Z.of_nat (dense_rank_of V q)))
               | NaN => NaN
               end) vs)
  = Raise IntCastingNaNError.
Proof.
  induction vs as [|[q|] vs IH]; intro Hin.
  - destruct Hin.
  - destruct Hin as [Heq | Hin]; [discriminate|].
    cbn [map mapM bind]. now rewrite (IH Hin).
  - reflexivity.
Qed.

(** A successful aggregation, column by column. *)
Lemma aggregation_columns (weights : Weights)
  (cutting_grid : list FactorScores) (table : list ScoredCell) :
  calculate_overall_priority weights cutting_grid = Ok table ->
  exists qs,
    _normalize_score (map (weighted_sum weights) cutting_grid) false
    = map Fin qs /\
    table = assemble cutting_grid (map (weighted_sum weights) cutting_grid)
              (map Fin qs) (map (fun q => classify (Fin q)) qs)
              (map (fun q => Z.of_nat (dense_rank_of (map Fin qs) q)) qs).
Proof.
  unfold calculate_overall_priority, astype_int, rank_dense_descending.
  destruct (all_numbers_or_nan
              (_normalize_score (map (weighted_sum weights) cutting_grid)
                                false)) as [[qs Hqs] | Hnan].
  - rewrite Hqs, astype_int_of_ranks. cbn [bind]. intro Hok.
    exists qs. split; [reflexivity|]. rewrite map_map in Hok. congruence.
  - rewrite (astype_int_nan _ _ Hnan). discriminate.
Qed.

Lemma weighted_sum_numeric (weights : Weights) (r : FactorScores) :
  numeric_row r -> exists q, weighted_sum weights r = Fin q.
Proof.
  destruct r as [[a|] [b|] [c|] [d|] [e|]];
    intros (H1 & H2 & H3 & H4 & H5); simpl in *; try discriminate.
  eexists. reflexivity.
Qed.

Lemma weighted_sums_numeric (weights : Weights)
  (cutting_grid : list FactorScores) :
  Forall numeric_row cutting_grid ->
  exists qs, map (weighted_sum weights) cutting_grid = map Fin qs.
Proof.
  induction 1 as [|r grid Hr _ [qs IH]]; [now exists []|].
  destruct (weighted_sum_numeric weights r Hr) as [q Hq].
  exists (q :: qs). simpl. now rewrite Hq, IH.
Qed.

Lemma assemble_length (fs : list FactorScores) (ov nm : list pyfloat)
  (cl : list (option PriorityClass)) (rk : list Z) (n : nat) :
  length fs = n -> length ov = n -> length nm = n -> length cl = n ->
  length rk = n -> length (assemble fs ov nm cl rk) = n.
Proof.
  revert fs ov nm cl rk.
  induction n as [|n IH]; intros fs ov nm cl rk H1 H2 H3 H4 H5;
    destruct fs, ov, nm, cl, rk; simpl in *; try discriminate;
    try reflexivity.
  f_equal. apply IH; congruence.
Qed.

(** With numeric rows the aggregation returns one scored cell per row,
    whatever the weights are. *)
Lemma aggregation_returns (weights : Weights)
  (cutting_grid : list FactorScores) :
  Forall numeric_row cutting_grid ->
  exists table,
    calculate_overall_priority weights cutting_grid = Ok table /\
    length table = length cutting_grid.
Proof.
  intro Hnum.
  destruct (weighted_sums_numeric weights cutting_grid Hnum) as [ws Hws].
  destruct (normalize_numeric ws false) as [qs Hqs].
  pose proof (normalize_length (map Fin ws) false) as Hlen.
  rewrite Hqs, !length_map in Hlen.
  assert (Hgrid : length cutting_grid = length ws).
  { rewrite <- (length_map (weighted_sum weights) cutting_grid), Hws.
    apply length_map. }
  unfold calculate_overall_priority, astype_int, rank_dense_descending.
  rewrite Hws, Hqs, astype_int_of_ranks. cbn [bind].
  eexists. split; [reflexivity|].
  apply assemble_length; rewrite ?length_map; congruence.
Qed.

Lemma assemble_in (fs : list FactorScores) (ov : list pyfloat) (qs : list Q)
  (fc : Q -> option PriorityClass) (fr : Q -> Z) (c : ScoredCell) :
  In c (assemble fs ov (map Fin qs) (map fc qs) (map fr qs)) ->
  exists q, In q qs /\ priority_normalized c = Fin q /\
            priority_class c = fc q /\ priority_rank c = fr q.
Proof.
  revert fs ov. induction qs as [|q qs IH]; intros fs ov Hin.
  - destruct fs, ov; simpl in Hin; destruct Hin.
  - destruct fs as [|f fs], ov as [|o ov]; simpl in Hin; try destruct Hin.
    + subst c. exists q. simpl. auto.
    + destruct (IH fs ov H) as [q' [Hq' Hrest]].
      exists q'. split; [now right | exact Hrest].
Qed.

Lemma assemble_covers (fs : list FactorScores) (ov : list pyfloat)
  (qs : list Q) (fc : Q -> option PriorityClass) (fr : Q -> Z) (q : Q) :
  length fs = length qs -> length ov = length qs -> In q qs ->
  exists c, In c (assemble fs ov (map Fin qs) (map fc qs) (map fr qs)) /\
            priority_normalized c = Fin q /\ priority_rank c = fr q.
Proof.
  revert fs ov. induction qs as [|q' qs IH]; intros fs ov Hfs Hov Hin;
    [destruct Hin|].
  destruct fs as [|f fs], ov as [|o ov]; simpl in Hfs, Hov; try discriminate.
  destruct Hin as [-> | Hin].
  - eexists. split; [left; reflexivity|]. simpl. auto.
  - destruct (IH fs ov) as [c [Hc Hrest]]; try congruence; try exact Hin.
    exists c. split; [now right | exact Hrest].
Qed.

(** ** Dense ranks *)

Lemma rank_groups_strict (qs : list Q) :
  StronglySorted gt_first (groups (sort_desc qs)).
Proof. apply groups_strict, sort_desc_sorted. Qed.

Lemma rank_groups_represent (qs : list Q) (q : Q) :
  In q qs -> exists d, In d (groups (sort_desc qs)) /\ d == q.
Proof. intro Hq. apply groups_represent. now apply sort_desc_in. Qed.

Lemma rank_groups_members (qs : list Q) (d : Q) :
  In d (groups (sort_desc qs)) -> In d qs.
Proof. intro Hd. apply sort_desc_in. now apply groups_in. Qed.

Lemma dense_rank_of_numbers (qs : list Q) (q : Q) :
  dense_rank_of (map Fin qs) q = S (index_of q (groups (sort_desc qs))).
Proof. unfold dense_rank_of. now rewrite numbers_map_Fin. Qed.

(** C9: the ranks of a scored grid are dense over the final normalised
    priority in descending order: equal priorities share a rank, a strictly
    higher priority has a strictly smaller rank, and the ranks in use are
    exactly 1, 2, ..., k.  The aggregation of a grid with numeric rows does
    return such a table. *)
Theorem priority_ranks_are_dense (weights : Weights)
  (cutting_grid : list FactorScores) :
  (Forall numeric_row cutting_grid ->
   exists table,
     calculate_overall_priority weights cutting_grid = Ok table /\
     length table = length cutting_grid) /\
  (forall table,
      calculate_overall_priority weights cutting_grid = Ok table ->
      (forall a b x y,
          In a table -> In b table ->
          priority_normalized a = Fin x -> priority_normalized b = Fin y ->
          (x == y -> priority_rank a = priority_rank b) /\
          (y < x -> (priority_rank a < priority_rank b)%Z)) /\
      (forall c, In c table -> exists x, priority_normalized c = Fin x) /\
      exists k : Z,
        (forall c, In c table -> (1 <= priority_rank c <= k)%Z) /\
        (forall r, (1 <= r <= k)%Z ->
                   exists c, In c table /\ priority_rank c = r)).
Proof.
  split; [apply aggregation_returns|].
  intros table Hrun.
  destruct (aggregation_columns weights cutting_grid table Hrun)
    as [qs [Hnorm ->]].
  set (D := groups (sort_desc qs)).
  assert (Hcell : forall c,
             In c (assemble cutting_grid
                     (map (weighted_sum weights) cutting_grid)
                     (map Fin qs) (map (fun q => classify (Fin q)) qs)
                     (map (fun q => Z.of_nat (dense_rank_of (map Fin qs) q))
                          qs)) ->
             exists q, In q qs /\ priority_normalized c = Fin q /\
                       priority_rank c = Z.of_nat (S (index_of q D))).
  { intros c Hc. destruct (assemble_in _ _ _ _ _ _ Hc) as [q (Hq & Hn & _ & Hr)].
    exists q. rewrite dense_rank_of_numbers in Hr. auto. }
  split; [|split].
  - intros a b x y Ha Hb Hx Hy.
    destruct (Hcell a Ha) as [qa (Hqa & Hna & Hra)].
    destruct (Hcell b Hb) as [qb (Hqb & Hnb & Hrb)].
    assert (qa = x) by congruence. assert (qb = y) by congruence. subst qa qb.
    rewrite Hra, Hrb. split.
    + intro Hxy. now rewrite (index_of_compat x y D Hxy).
    + intro Hlt.
      pose proof (index_of_strict x y D (rank_groups_strict qs)
                    (rank_groups_represent qs x Hqa)
                    (rank_groups_represent qs y Hqb) Hlt).
      lia.
  - intros c Hc. destruct (Hcell c Hc) as [q (_ & Hn & _)]. now exists q.
  - exists (Z.of_nat (length D)). split.
    + intros c Hc. destruct (Hcell c Hc) as [q (Hq & _ & Hr)].
      pose proof (index_of_bound q D (rank_groups_represent qs q Hq)).
      lia.
    + intros r Hr.
      set (i := Z.to_nat (r - 1)).
      assert (Hi : (i < length D)%nat) by (unfold i; lia).
      assert (Hd : In (nth i D 0) qs)
        by (apply rank_groups_members, nth_In, Hi).
      assert (Hlen : length cutting_grid = length qs).
      { pose proof (normalize_length
                      (map (weighted_sum weights) cutting_grid) false) as Hl.
        rewrite Hnorm, !length_map in Hl. congruence. }
      destruct (assemble_covers cutting_grid
                  (map (weighted_sum weights) cutting_grid) qs
                  (fun q => classify (Fin q))
                  (fun q => Z.of_nat (dense_rank_of (map Fin qs) q))
                  (nth i D 0)) as [c (Hc & _ & Hrank)];
        [exact Hlen | now rewrite length_map | exact Hd |].
      exists c. split; [exact Hc|].
      rewrite Hrank, dense_rank_of_numbers.
      fold D. rewrite (index_of_nth D i (rank_groups_strict qs) Hi).
      unfold i. lia.
Qed.

Lemma priority_ranks_are_dense_witness :
  exists table,
    calculate_overall_priority init_weights boundary_grid = Ok table /\
    exists k : Z,
      forall c, In c table -> (1 <= priority_rank c <= k)%Z.
Proof.
  destruct (priority_ranks_are_dense init_weights boundary_grid)
    as [Hreturns Hdense].
  destruct Hreturns as [table [Hrun _]]; [repeat constructor|].
  exists table. split; [exact Hrun|].
  destruct (Hdense table Hrun) as (_ & _ & k & Hk & _).
  now exists k.
Defined.

(** ** Classification *)

Ltac settle_ltb a b :=
  first [ assert (Qltb a b = true) by (apply Qltb_lt; lra)
        | assert (Qltb a b = false) by (apply Qltb_ge; lra) ].

Ltac settle_leb a b :=
  first [ assert (Qle_bool a b = true) by (apply Qle_bool_iff; lra)
        | assert (Qle_bool a b = false) by (apply Qle_bool_gt; lra) ].

Ltac settle_eqb a b :=
  first [ assert (Qeq_bool a b = true) by (apply Qeq_bool_iff; lra)
        | assert (Qeq_bool a b = false) by (apply Qeq_bool_false; lra) ].

(** Inside one bin every comparison of [classify] is decided. *)
Ltac settle_bins q :=
  unfold classify, cut, searchsorted_left, priority_bins;
  cbn [filter hd andb];
  settle_eqb q 0;
  settle_ltb 0 q; settle_ltb 2 q; settle_ltb 4 q; settle_ltb 6 q;
  settle_ltb 8 q; settle_ltb 10 q;
  settle_ltb q 0;
  settle_leb q 2; settle_leb q 4; settle_leb q 6;
  settle_leb q 8; settle_leb q 10;
  repeat match goal with
         | H : _ = true |- _ => rewrite ?H; clear H
         | H : _ = false |- _ => rewrite ?H; clear H
         end;
  reflexivity.

Lemma classify_bins (q : Q) :
  classify (Fin q) =
  if Qltb q 0 then None
  else if Qle_bool q 2 then Some VeryLow
  else if Qle_bool q 4 then Some Low
  else if Qle_bool q 6 then Some Medium
  else if Qle_bool q 8 then Some High
  else if Qle_bool q 10 then Some VeryHigh
  else None.
Proof.
  destruct (Qlt_le_dec q 0) as [N | P0]; [settle_bins q|].
  destruct (Qlt_le_dec 0 q) as [P | Z]; [|settle_bins q].
  destruct (Qlt_le_dec 2 q) as [P2 | L2]; [|settle_bins q].
  destruct (Qlt_le_dec 4 q) as [P4 | L4]; [|settle_bins q].
  destruct (Qlt_le_dec 6 q) as [P6 | L6]; [|settle_bins q].
  destruct (Qlt_le_dec 8 q) as [P8 | L8]; [|settle_bins q].
  destruct (Qlt_le_dec 10 q) as [P10 | L10]; settle_bins q.
Qed.

(** C1, as the code has it: [pandas.cut] closes the bins on the right, so
    the class of a scored cell follows [0,2], (2,4], (4,6], (6,8], (8,10],
    only the lowest bin being closed at both ends; a final priority of
    exactly 2 is "Very Low". *)
Theorem priority_class_right_closed_bins (weights : Weights)
  (cutting_grid : list FactorScores) (table : list ScoredCell)
  (c : ScoredCell) (q : Q) :
  calculate_overall_priority weights cutting_grid = Ok table ->
  In c table -> priority_normalized c = Fin q ->
  (q == 2 -> priority_class c = Some VeryLow) /\
  (0 <= q <= 2 -> priority_class c = Some VeryLow) /\
  (2 < q <= 4 -> priority_class c = Some Low) /\
  (4 < q <= 6 -> priority_class c = Some Medium) /\
  (6 < q <= 8 -> priority_class c = Some High) /\
  (8 < q <= 10 -> priority_class c = Some VeryHigh).
Proof.
  intros Hrun Hc Hq.
  destruct (aggregation_columns weights cutting_grid table Hrun)
    as [qs [_ ->]].
  destruct (assemble_in _ _ _ _ _ _ Hc) as [q' (_ & Hn & Hclass & _)].
  assert (q' = q) by congruence. subst q'.
  rewrite Hclass, classify_bins.
  repeat split; intro Hbin;
    settle_ltb q 0; settle_leb q 2; settle_leb q 4; settle_leb q 6;
    settle_leb q 8; settle_leb q 10;
    repeat match goal with
           | H : _ = true |- _ => rewrite ?H; clear H
           | H : _ = false |- _ => rewrite ?H; clear H
           end;
    reflexivity.
Qed.

Lemma priority_class_right_closed_bins_witness :
  priority_class boundary_cell = Some VeryLow.
Proof.
  refine (proj1 (priority_class_right_closed_bins init_weights boundary_grid
                   boundary_table boundary_cell boundary_priority _ _ _) _).
  - reflexivity.
  - right. left. reflexivity.
  - reflexivity.
  - reflexivity.
Defined.

(** C1 as worded fails on the boundary: in the aggregation of three rows
    scoring 0, 2 and 10 throughout, the middle cell has final priority
    exactly 2 and is classified "Very Low", where the half-open bins of the
    data model put it in "Low". *)
Lemma boundary_score_two_is_very_low :
  (calculate_overall_priority init_weights boundary_grid = Ok boundary_table /\
   In boundary_cell boundary_table /\
   PyFloat.same (priority_normalized boundary_cell) (Fin 2) /\
   priority_class boundary_cell = Some VeryLow /\
   priority_class boundary_cell <> half_open_class 2 /\
   half_open_class 2 = Some Low) /\
  (exists c0 c1 c2,
      run_analysis init_weights boundary_layers boundary_cells
      = Ok [c0; c1; c2] /\
      PyFloat.same (priority_normalized c1) (Fin 2) /\
      priority_class c1 = Some VeryLow).
Proof.
  split.
  - split; [vm_compute; reflexivity|].
    split; [right; left; vm_compute; reflexivity|].
    split; [vm_compute; reflexivity|].
    split; [vm_compute; reflexivity|].
    split; [vm_compute; discriminate | vm_compute; reflexivity].
  - do 3 eexists.
    split; [vm_compute; reflexivity|].
    split; vm_compute; reflexivity.
Qed.






